(** * opa-client: the HTTP policy client, its wire types and its retried
      request/response exchange.

    The development embeds [types.go], the HTTP client
    ([QueryPermissions], [QueryPermissionsMultiResources]) and [nop.go].
    Effects (the virtual clock, serialisation, outbound requests, sleeps and
    log lines) are threaded through a small state monad whose outcomes are a
    normal return, a Go run-time panic, or divergence. *)

From Stdlib Require Import String Ascii List NArith Arith Bool Lia Permutation.
Import ListNotations.
Open Scope string_scope.

(** ** types.go *)

(** [time.Duration]: a count of nanoseconds. *)
Definition Duration := N.
Definition Second : Duration := 1000000000%N.

Inductive ClientKind := ClientKindHTTP | ClientKindNop | ClientKindMock.
Definition DefaultClientKind := ClientKindNop.
Definition DefaultRequestTimeOut : Duration := (10 * Second)%N.

Record PermissionOptions := {
  MemberIds : list string;
  RaiseForbidden : bool;
  OverrideHeaderValue : string
}.

(** Field tags of the wire structs: every field is [omitempty]. *)
Record PermissionQueryRequestInput := {
  Query_Resource : string;   (* `json:"resource,omitempty"` *)
  Query_Action : string;     (* `json:"action,omitempty"` *)
  Query_Ids : list string    (* `json:"ids,omitempty"` *)
}.

Record PermissionQueryRequest := {
  Query_Input : PermissionQueryRequestInput   (* `json:"input,omitempty"` *)
}.

Record PermissionFilterRequestInput := {
  Filter_Resources : list string;  (* `json:"resources,omitempty"` *)
  Filter_Action : string;          (* `json:"action,omitempty"` *)
  Filter_Ids : list string         (* `json:"ids,omitempty"` *)
}.

Record PermissionFilterRequest := {
  Filter_Input : PermissionFilterRequestInput  (* `json:"input,omitempty"` *)
}.

Record PermissionQueryResponse := {
  Query_Result : bool        (* `json:"result,omitempty"` *)
}.

Record PermissionFilterResponse := {
  Filter_Result : list string  (* `json:"result,omitempty"` *)
}.

(** [type Action string]: any string converts to an [Action]. *)
Definition Action := string.
Definition ActionRead : Action := "read".
Definition ActionList : Action := "list".
Definition ActionCreate : Action := "create".
Definition ActionUpdate : Action := "update".
Definition ActionDelete : Action := "delete".

(** ** Errors ([github.com/nuclio/errors]): a message, or a wrapped cause. *)
Inductive error :=
| New (msg : string)
| Wrap (cause : error) (msg : string).

(** ** The world the client runs in *)

Record HTTPRequest := {
  rq_method : string;
  rq_url : string;
  rq_body : string;
  rq_headers : list (string * string);
  rq_cookies : list (string * string);
  rq_expectedStatus : N
}.

(** What the network answers to one attempt, and how long the attempt took. *)
Inductive Reply :=
| NetworkError (elapsed : Duration) (e : error)
| Response (elapsed : Duration) (status : N) (body : string).

Inductive Level := LevelInfo | LevelWarn | LevelError.

(** Observable effects, most recent first in [trace]. [EvSend] carries the
    clock reading at which the attempt started. *)
Inductive Event :=
| EvMarshal
| EvUnmarshal
| EvRetry (duration interval : Duration)
| EvSend (at_time : Duration) (rq : HTTPRequest)
| EvSleep (d : Duration)
| EvLog (lvl : Level) (msg : string).

Record World := {
  clock : Duration;
  trace : list Event
}.

Definition is_send (e : Event) : bool :=
  match e with EvSend _ _ => true | _ => false end.

(** Number of transport attempts made so far. *)
Definition attempts (w : World) : nat := List.length (filter is_send (trace w)).

Definition emit (e : Event) (w : World) : World :=
  {| clock := clock w; trace := e :: trace w |}.

Definition advance (d : Duration) (w : World) : World :=
  {| clock := (clock w + d)%N; trace := trace w |}.

(** Everything outside the two query functions that they call into. *)
Record Env := {
  UserAgent : string;
  (* encoding/json, at the four types it is used at *)
  json_Marshal_query : PermissionQueryRequest -> error + string;
  json_Marshal_filter : PermissionFilterRequest -> error + string;
  json_Unmarshal_query : string -> error + PermissionQueryResponse;
  json_Unmarshal_filter : string -> error + PermissionFilterResponse;
  (* the network: the answer to the n-th attempt overall *)
  server : nat -> HTTPRequest -> Reply
}.

(** ** The effect monad *)

Inductive outcome (A : Type) :=
| Returns (a : A) (w : World)
| Panics (reason : string) (w : World)
| Diverges.
Arguments Returns {A} a w.
Arguments Panics {A} reason w.
Arguments Diverges {A}.

Definition M (A : Type) := World -> outcome A.

Definition ret {A} (a : A) : M A := fun w => Returns a w.

Definition bind {A B} (m : M A) (k : A -> M B) : M B :=
  fun w =>
    match m w with
    | Returns a w' => k a w'
    | Panics r w' => Panics r w'
    | Diverges => Diverges
    end.

Definition panic {A} (reason : string) : M A := fun w => Panics reason w.

Declare Scope go_scope.
Delimit Scope go_scope with go.
Notation "x <- m ;; k" := (bind m (fun x => k))
  (at level 61, m at next level, right associativity) : go_scope.
Notation "' pat <- m ;; k" := (bind m (fun x => match x with pat => k end))
  (at level 61, pat pattern, m at next level, right associativity) : go_scope.
Notation "m ;; k" := (bind m (fun _ => k))
  (at level 61, right associativity) : go_scope.
Open Scope go_scope.

Definition tell (e : Event) : M unit := fun w => Returns tt (emit e w).
Definition now : M Duration := fun w => Returns (clock w) w.
Definition sleep (d : Duration) : M unit :=
  fun w => Returns tt (emit (EvSleep d) (advance d w)).
Definition log (lvl : Level) (msg : string) : M unit := tell (EvLog lvl msg).
Definition when (b : bool) (m : M unit) : M unit := if b then m else ret tt.

(** Dereferencing a possibly nil pointer. *)
Definition deref {A} (p : option A) : M A :=
  match p with
  | Some a => ret a
  | None => panic "invalid memory address or nil pointer dereference"
  end.

(** ** Slices of booleans *)

(** [make([]bool, n)] *)
Definition make_bools (n : nat) : list bool := repeat false n.

(** [s[i] = v]; out of range is a run-time panic. *)
Fixpoint slice_set (s : list bool) (i : nat) (v : bool) : option (list bool) :=
  match s, i with
  | [], _ => None
  | _ :: t, O => Some (v :: t)
  | x :: t, S j => option_map (cons x) (slice_set t j v)
  end.

Definition assign (s : list bool) (i : nat) (v : bool) : M (list bool) :=
  match slice_set s i v with
  | Some s' => ret s'
  | None => panic "index out of range"
  end.

(** [slices.Contains] at strings. *)
Definition slices_Contains (s : list string) (v : string) : bool :=
  existsb (String.eqb v) s.

(** ** The HTTP client *)

Record HTTPClient := {
  address : string;
  permissionQueryPath : string;
  permissionFilterPath : string;
  requestTimeout : Duration;
  verbose : bool;
  overrideHeaderValue : string;
  (* httpClient: its timeout and the TLS setting of its transport *)
  httpClient_Timeout : Duration;
  httpClient_InsecureSkipVerify : bool
}.

Definition NewHTTPClient (address permissionQueryPath permissionFilterPath : string)
    (requestTimeout : Duration) (verbose : bool) (overrideHeaderValue : string)
    (skipTLSVerify : bool) : HTTPClient :=
  (* enrich request timeout with a default value if not set *)
  let requestTimeout :=
    if (requestTimeout =? 0)%N then DefaultRequestTimeOut else requestTimeout in
  {| address := address;
     permissionQueryPath := permissionQueryPath;
     permissionFilterPath := permissionFilterPath;
     requestTimeout := requestTimeout;
     verbose := verbose;
     overrideHeaderValue := overrideHeaderValue;
     httpClient_Timeout := requestTimeout;
     httpClient_InsecureSkipVerify := skipTLSVerify |}.

Definition http_MethodPost : string := "POST".
Definition http_StatusOK : N := 200%N.

(** Modelled from the spec: [sendHTTPRequest], the transport invoker, is not
    among the sources. One call is one request/response exchange: it sends
    the request, and reports a failure for a network-level error or for a
    status different from the expected one; it does not retry. The call
    context and the [http.Client] handle are left out; how long the exchange
    takes is part of the network's answer. *)
Definition sendHTTPRequest (E : Env) (method url body : string)
    (headers cookies : list (string * string)) (expectedStatus : N)
    : M (string * option error) :=
  fun w =>
    let rq := {| rq_method := method; rq_url := url; rq_body := body;
                 rq_headers := headers; rq_cookies := cookies;
                 rq_expectedStatus := expectedStatus |} in
    let w1 := emit (EvSend (clock w) rq) w in
    match server E (attempts w) rq with
    | NetworkError d e => Returns ("", Some e) (advance d w1)
    | Response d status b =>
        if (status =? expectedStatus)%N
        then Returns (b, None) (advance d w1)
        else Returns ("", Some (New "unexpected status code")) (advance d w1)
    end.

Definition timed_out : error := New "Timed out waiting until successful".

(** Modelled from the spec: [retryUntilSuccessful], the bounded retrier, is
    not among the sources. Given a total timeout, a poll interval and a
    probe, it invokes the probe, sleeping [interval] after each failure,
    until the probe reports success or the timeout has elapsed, and reports
    overall success ([None]) or failure. The variables the probe closure
    captures are passed through as [a]. The loop is cut off after [fuel]
    rounds; [retryUntilSuccessful] supplies [duration / interval + 2]. *)
Fixpoint retryLoop {A} (fuel : nat) (deadline interval : Duration)
    (callback : A -> M (bool * A)) (a : A) : M (option error * A) :=
  match fuel with
  | O => fun _ => Diverges
  | S fuel' =>
      t <- now ;;
      if (t <=? deadline)%N then
        '(ok, a') <- callback a ;;
        if ok then ret (None, a')
        else sleep interval ;; retryLoop fuel' deadline interval callback a'
      else ret (Some timed_out, a)
  end.

Definition retryUntilSuccessful {A} (duration interval : Duration)
    (callback : A -> M (bool * A)) (a : A) : M (option error * A) :=
  tell (EvRetry duration interval) ;;
  t <- now ;;
  retryLoop (S (S (N.to_nat (duration / interval)))) (t + duration)%N interval
    callback a.

(** The probe both query functions hand to the retrier: one transport
    attempt, writing the captured [responseBody] and [err]. *)
Definition sendProbe (E : Env) (requestURL requestBody : string)
    (headers : list (string * string)) (captured : string * option error)
    : M (bool * (string * option error)) :=
  '(responseBody, err) <-
     sendHTTPRequest E http_MethodPost requestURL requestBody headers []
       http_StatusOK ;;
  match err with
  | Some _ =>
      log LevelWarn "Failed to send HTTP request to OPA, retrying" ;;
      ret (false, (responseBody, err))
  | None => ret (true, (responseBody, err))
  end.

(** [c.overrideHeaderValue != "" &&
     permissionOptions.OverrideHeaderValue == c.overrideHeaderValue];
    the right operand is only evaluated when the left one holds. *)
Definition overrideMatches (c : HTTPClient)
    (permissionOptions : option PermissionOptions) : M bool :=
  if negb (overrideHeaderValue c =? "") then
    o <- deref permissionOptions ;;
    ret (OverrideHeaderValue o =? overrideHeaderValue c)
  else ret false.

(** [for i := 0; i < len(results); i++ { results[i] = true }] *)
Fixpoint allowAll_loop (rounds i : nat) (results : list bool) : M (list bool) :=
  match rounds with
  | O => ret results
  | S rounds' =>
      results' <- assign results i true ;;
      allowAll_loop rounds' (S i) results'
  end.

Definition allowAll (results : list bool) : M (list bool) :=
  allowAll_loop (List.length results) 0 results.

(** [for resourceIdx, resource := range resources {
       if slices.Contains(allowed, resource) { results[resourceIdx] = true } }] *)
Fixpoint markAllowed (allowed : list string) (resourceIdx : nat)
    (resources : list string) (results : list bool) : M (list bool) :=
  match resources with
  | [] => ret results
  | resource :: rest =>
      results' <- (if slices_Contains allowed resource
                   then assign results resourceIdx true
                   else ret results) ;;
      markAllowed allowed (S resourceIdx) rest results'
  end.

Definition requestHeaders (E : Env) : list (string * string) :=
  [("Content-Type", "application/json"); ("User-Agent", UserAgent E)].

(** A Go slice result: [None] is the nil slice. *)
Definition QueryPermissionsMultiResources (E : Env) (c : HTTPClient)
    (resources : list string) (action : Action)
    (permissionOptions : option PermissionOptions)
    : M (option (list bool) * option error) :=
  (* initialize results *)
  let results := make_bools (List.length resources) in
  bypass <- overrideMatches c permissionOptions ;;
  if bypass then
    (* allow them all *)
    results <- allowAll results ;;
    ret (Some results, None)
  else
    let requestURL := address c ++ permissionFilterPath c in
    let headers := requestHeaders E in
    o <- deref permissionOptions ;;
    let request := {| Filter_Input := {| Filter_Resources := resources;
                                         Filter_Action := action;
                                         Filter_Ids := MemberIds o |} |} in
    tell EvMarshal ;;
    match json_Marshal_filter E request with
    | inl err => ret (None, Some (Wrap err "Failed to generate request body"))
    | inr requestBody =>
        when (verbose c) (log LevelInfo "Sending request to OPA") ;;
        '(err, (responseBody, _)) <-
           retryUntilSuccessful (6 * Second)%N (1 * Second)%N
             (sendProbe E requestURL requestBody headers) ("", None) ;;
        match err with
        | Some err =>
            when (verbose c) (log LevelError "Failed to send HTTP request to OPA") ;;
            ret (None, Some (Wrap err "Failed to send HTTP request to OPA"))
        | None =>
            when (verbose c) (log LevelInfo "Received response from OPA") ;;
            tell EvUnmarshal ;;
            match json_Unmarshal_filter E responseBody with
            | inl err => ret (None, Some (Wrap err "Failed to unmarshal response body"))
            | inr permissionFilterResponse =>
                when (verbose c)
                  (log LevelInfo "Successfully unmarshalled permission filter response") ;;
                results <- markAllowed (Filter_Result permissionFilterResponse) 0
                             resources results ;;
                ret (Some results, None)
            end
        end
    end.

Definition QueryPermissions (E : Env) (c : HTTPClient)
    (resource : string) (action : Action)
    (permissionOptions : option PermissionOptions)
    : M (bool * option error) :=
  bypass <- overrideMatches c permissionOptions ;;
  if bypass then ret (true, None)
  else
    let requestURL := address c ++ permissionQueryPath c in
    let headers := requestHeaders E in
    o <- deref permissionOptions ;;
    let request := {| Query_Input := {| Query_Resource := resource;
                                        Query_Action := action;
                                        Query_Ids := MemberIds o |} |} in
    tell EvMarshal ;;
    match json_Marshal_query E request with
    | inl err => ret (false, Some (Wrap err "Failed to generate request body"))
    | inr requestBody =>
        when (verbose c) (log LevelInfo "Sending request to OPA") ;;
        '(err, (responseBody, _)) <-
           retryUntilSuccessful (6 * Second)%N (1 * Second)%N
             (sendProbe E requestURL requestBody headers) ("", None) ;;
        match err with
        | Some err =>
            when (verbose c) (log LevelError "Failed to send HTTP request to OPA") ;;
            ret (false, Some (Wrap err "Failed to send HTTP request to OPA"))
        | None =>
            when (verbose c) (log LevelInfo "Received response from OPA") ;;
            tell EvUnmarshal ;;
            match json_Unmarshal_query E responseBody with
            | inl err => ret (false, Some (Wrap err "Failed to unmarshal response body"))
            | inr permissionResponse =>
                when (verbose c)
                  (log LevelInfo "Successfully unmarshalled permission response") ;;
                ret (Query_Result permissionResponse, None)
            end
        end
    end.

(** ** nop.go *)

Record NopClient := { nop_verbose : bool }.

Definition NewNopClient (verbose : bool) : NopClient := {| nop_verbose := verbose |}.

Definition Nop_QueryPermissionsMultiResources (c : NopClient)
    (resources : list string) (action : Action)
    (permissionOptions : option PermissionOptions)
    : M (option (list bool) * option error) :=
  when (nop_verbose c) (log LevelInfo "Skipping permission query for multi resources") ;;
  let results := make_bools (List.length resources) in
  results <- allowAll results ;;
  ret (Some results, None).

Definition Nop_QueryPermissions (c : NopClient) (resource : string)
    (action : Action) (permissionOptions : option PermissionOptions)
    : M (bool * option error) :=
  when (nop_verbose c) (log LevelInfo "Skipping permission query") ;;
  ret (true, None).

(** ** encoding/json on the request structs

    [json.Marshal] of a struct writes its exported fields in declaration
    order under their tag names; an [omitempty] field is left out when it is
    the empty string or a slice of length zero, and [omitempty] has no
    effect on a field of struct type. The string-literal encoder (its
    escaping rules) is a parameter, [quote]. *)

#[local] Set Warnings "-register-all".
Inductive json :=
| JString (s : string)
| JBool (b : bool)
| JArray (items : list json)
| JObject (fields : list (string * json)).

Definition omitempty_string (key v : string) : list (string * json) :=
  if v =? "" then [] else [(key, JString v)].

Definition omitempty_strings (key : string) (v : list string)
    : list (string * json) :=
  match v with
  | [] => []
  | _ :: _ => [(key, JArray (map JString v))]
  end.

Definition encode_PermissionQueryRequestInput (i : PermissionQueryRequestInput) : json :=
  JObject (omitempty_string "resource" (Query_Resource i)
           ++ omitempty_string "action" (Query_Action i)
           ++ omitempty_strings "ids" (Query_Ids i)).

Definition encode_PermissionQueryRequest (r : PermissionQueryRequest) : json :=
  JObject [("input", encode_PermissionQueryRequestInput (Query_Input r))].

Definition encode_PermissionFilterRequestInput (i : PermissionFilterRequestInput) : json :=
  JObject (omitempty_strings "resources" (Filter_Resources i)
           ++ omitempty_string "action" (Filter_Action i)
           ++ omitempty_strings "ids" (Filter_Ids i)).

Definition encode_PermissionFilterRequest (r : PermissionFilterRequest) : json :=
  JObject [("input", encode_PermissionFilterRequestInput (Filter_Input r))].

Section Render.
Variable quote : string -> string.

Fixpoint render (j : json) : string :=
  match j with
  | JString s => quote s
  | JBool b => if b then "true" else "false"
  | JArray items =>
      "[" ++ (fix elems (l : list json) : string :=
                match l with
                | [] => ""
                | [x] => render x
                | x :: rest => render x ++ "," ++ elems rest
                end) items ++ "]"
  | JObject fields =>
      "{" ++ (fix members (l : list (string * json)) : string :=
                match l with
                | [] => ""
                | [(k, v)] => quote k ++ ":" ++ render v
                | (k, v) :: rest => quote k ++ ":" ++ render v ++ "," ++ members rest
                end) fields ++ "}"
  end.

Definition go_Marshal_query (r : PermissionQueryRequest) : error + string :=
  inr (render (encode_PermissionQueryRequest r)).

Definition go_Marshal_filter (r : PermissionFilterRequest) : error + string :=
  inr (render (encode_PermissionFilterRequest r)).
End Render.

(** The quote character, and the literal encoder on strings that need no
    escaping. *)
Definition dquote : string := String "034"%char EmptyString.
Definition plain_quote (s : string) : string := dquote ++ s ++ dquote.

(** The single-query request document as the wire protocol words it: the
    "input" object with the three keys "resource", "action" and "ids". *)
Definition wire_query_document (resource action : string) (ids : list string) : json :=
  JObject [("input", JObject [("resource", JString resource);
                              ("action", JString action);
                              ("ids", JArray (map JString ids))])].

(** ** Reading runs *)

Definition returned {A} (o : outcome A) : option A :=
  match o with Returns a _ => Some a | _ => None end.

Definition final {A} (o : outcome A) : option World :=
  match o with Returns _ w => Some w | Panics _ w => Some w | Diverges => None end.

Definition is_retry (e : Event) : bool :=
  match e with EvRetry _ _ => true | _ => false end.
Definition is_sleep (e : Event) : bool :=
  match e with EvSleep _ => true | _ => false end.
Definition is_marshal (e : Event) : bool :=
  match e with EvMarshal => true | _ => false end.
Definition is_unmarshal (e : Event) : bool :=
  match e with EvUnmarshal => true | _ => false end.

(** The request both probes send. *)
Definition postRequest (E : Env) (requestURL requestBody : string) : HTTPRequest :=
  {| rq_method := http_MethodPost; rq_url := requestURL; rq_body := requestBody;
     rq_headers := requestHeaders E; rq_cookies := [];
     rq_expectedStatus := http_StatusOK |}.

(** How the transport invoker classifies an answer. *)
Definition reply_elapsed (r : Reply) : Duration :=
  match r with NetworkError d _ => d | Response d _ _ => d end.

Definition reply_body (expected : N) (r : Reply) : option string :=
  match r with
  | NetworkError _ _ => None
  | Response _ status b => if (status =? expected)%N then Some b else None
  end.

(** Retried from clock reading [t] with attempt number [n]: the first [k]
    attempts fail, attempt [n + k] is answered with the expected status and
    [body], and every one of these attempts starts by [deadline]. *)
Fixpoint succeeds_after (E : Env) (rq : HTTPRequest) (interval deadline : Duration)
    (k n : nat) (t : Duration) (body : string) : Prop :=
  (t <= deadline)%N /\
  match k with
  | O => reply_body (rq_expectedStatus rq) (server E n rq) = Some body
  | S k' =>
      reply_body (rq_expectedStatus rq) (server E n rq) = None /\
      succeeds_after E rq interval deadline k' (S n)
        (t + reply_elapsed (server E n rq) + interval)%N body
  end.

(** No attempt from number [n] on is answered with the expected status. *)
Definition never_succeeds (E : Env) (rq : HTTPRequest) (n : nat) : Prop :=
  forall i, reply_body (rq_expectedStatus rq) (server E (n + i) rq) = None.

Definition reply_error (expected : N) (r : Reply) : error :=
  match r with
  | NetworkError _ e => e
  | Response _ _ _ => New "unexpected status code"
  end.

(** The world after one transport attempt for [rq]. *)
Definition sent (E : Env) (rq : HTTPRequest) (w : World) : World :=
  advance (reply_elapsed (server E (attempts w) rq)) (emit (EvSend (clock w) rq) w).

Definition logged (b : bool) (lvl : Level) (msg : string) (w : World) : World :=
  if b then emit (EvLog lvl msg) w else w.

(** The bypass test on a non-nil options pointer. *)
Definition bypasses (c : HTTPClient) (o : PermissionOptions) : bool :=
  negb (overrideHeaderValue c =? "") && (OverrideHeaderValue o =? overrideHeaderValue c).

(** Events a run of the retrier around [sendProbe] may add: attempts for
    [rq] started by [deadline], sleeps of [interval], warnings. *)
Definition probe_event (rq : HTTPRequest) (interval deadline : Duration)
    (e : Event) : Prop :=
  match e with
  | EvSend t r => r = rq /\ (t <= deadline)%N
  | EvSleep d => d = interval
  | EvLog lvl _ => lvl = LevelWarn
  | _ => False
  end.

(** Attempts and sleeps among [new] (most recent first), oldest first. *)
Definition exchange_events (new : list Event) : list Event :=
  rev (filter (fun e => is_send e || is_sleep e) new).

(** One attempt per round: attempt, sleep, attempt, sleep, ..., ending
    after an attempt (success) or after a sleep (timeout). *)
Fixpoint rounds_shape (l : list Event) : bool :=
  match l with
  | [] => true
  | EvSend _ _ :: rest =>
      match rest with
      | [] => true
      | EvSleep _ :: rest' => rounds_shape rest'
      | _ => false
      end
  | _ => false
  end.


(** What a run of the retrier around [sendProbe] from [w] to [w'] adds
    ([new], most recent first) and how its verdict relates to the answers. *)
Definition retry_facts (E : Env) (rq : HTTPRequest) (interval deadline : Duration)
    (w w' : World) (new : list Event) (err : option error) (responseBody : string)
    : Prop :=
  trace w' = (new ++ trace w)%list /\
  (clock w <= clock w')%N /\
  Forall (probe_event rq interval deadline) new /\
  rounds_shape (exchange_events new) = true /\
  match err with
  | None =>
      exists n, attempts w' = S n /\
        reply_body (rq_expectedStatus rq) (server E n rq) = Some responseBody
  | Some e =>
      e = timed_out /\
      forall i, i < List.length (filter is_send new) ->
        reply_body (rq_expectedStatus rq) (server E (attempts w + i) rq) = None
  end.

(** The request values the two functions build. *)
Definition queryRequest (resource : string) (action : Action)
    (o : PermissionOptions) : PermissionQueryRequest :=
  {| Query_Input := {| Query_Resource := resource; Query_Action := action;
                       Query_Ids := MemberIds o |} |}.

Definition filterRequest (resources : list string) (action : Action)
    (o : PermissionOptions) : PermissionFilterRequest :=
  {| Filter_Input := {| Filter_Resources := resources; Filter_Action := action;
                        Filter_Ids := MemberIds o |} |}.

(** The world when the retrier is entered: the request has been serialised
    and, in verbose mode, announced. *)
Definition encoded (c : HTTPClient) (w : World) : World :=
  logged (verbose c) LevelInfo "Sending request to OPA" (emit EvMarshal w).

(** The world when decoding fails or succeeds: the response has been
    announced in verbose mode and handed to the decoder. *)
Definition decoding (c : HTTPClient) (w : World) : World :=
  emit EvUnmarshal (logged (verbose c) LevelInfo "Received response from OPA" w).

(** Replacing the network, or the filter-response decoder, of an
    environment. *)
Definition with_server (E : Env) (srv : nat -> HTTPRequest -> Reply) : Env :=
  {| UserAgent := UserAgent E;
     json_Marshal_query := json_Marshal_query E;
     json_Marshal_filter := json_Marshal_filter E;
     json_Unmarshal_query := json_Unmarshal_query E;
     json_Unmarshal_filter := json_Unmarshal_filter E;
     server := srv |}.

Definition with_filter_decoder (E : Env)
    (dec : string -> error + PermissionFilterResponse) : Env :=
  {| UserAgent := UserAgent E;
     json_Marshal_query := json_Marshal_query E;
     json_Marshal_filter := json_Marshal_filter E;
     json_Unmarshal_query := json_Unmarshal_query E;
     json_Unmarshal_filter := dec;
     server := server E |}.

(** A network that answers every attempt at once with status 200 and
    [body]. *)
Definition answering (E : Env) (body : string) : Env :=
  with_server E (fun _ _ => Response 0%N http_StatusOK body).

(** Events of a whole query: every attempt is for [rq] and starts by
    [deadline], every sleep lasts one second, and the retrier is entered
    with six seconds and one second. *)
Definition query_event (rq : HTTPRequest) (deadline : Duration) (e : Event) : Prop :=
  match e with
  | EvSend t r => r = rq /\ (t <= deadline)%N
  | EvSleep d => d = (1 * Second)%N
  | EvRetry d i => d = (6 * Second)%N /\ i = (1 * Second)%N
  | _ => True
  end.

(** The three failures a query reports. *)
Definition failure_kind (e : error) : Prop :=
  exists cause,
    e = Wrap cause "Failed to generate request body" \/
    e = Wrap cause "Failed to send HTTP request to OPA" \/
    e = Wrap cause "Failed to unmarshal response body".

(** Bodies of the requests sent in a run, oldest first. *)
Definition sent_bodies {A} (o : outcome A) : list string :=
  match final o with
  | Some w =>
      rev (flat_map (fun e => match e with EvSend _ rq => [rq_body rq] | _ => [] end)
             (trace w))
  | None => []
  end.

(** ** Sample clients, options and environments *)

Definition w0 : World := {| clock := 0%N; trace := [] |}.

Definition sample_client : HTTPClient :=
  NewHTTPClient "http://opa:8181" "/v1/data/authz/allow" "/v1/data/authz/filter_allowed"
    0%N false "secret" false.

Definition open_client : HTTPClient :=
  NewHTTPClient "http://opa:8181" "/v1/data/authz/allow" "/v1/data/authz/filter_allowed"
    0%N true "" false.

Definition member_options : PermissionOptions :=
  {| MemberIds := ["u1"]; RaiseForbidden := false; OverrideHeaderValue := "" |}.

Definition secret_options : PermissionOptions :=
  {| MemberIds := []; RaiseForbidden := false; OverrideHeaderValue := "secret" |}.

Definition body_result_false : string := "{" ++ dquote ++ "result" ++ dquote ++ ": false}".
Definition body_result_a_c : string :=
  "{" ++ dquote ++ "result" ++ dquote ++ ":["
      ++ dquote ++ "a" ++ dquote ++ "," ++ dquote ++ "c" ++ dquote ++ "]}".

(** Decoders that know the sample bodies and reject everything else. *)
Definition sample_Unmarshal_query (body : string) : error + PermissionQueryResponse :=
  if body =? body_result_false then inr {| Query_Result := false |}
  else inl (New "unexpected end of JSON input").

Definition sample_Unmarshal_filter (body : string) : error + PermissionFilterResponse :=
  if body =? body_result_a_c then inr {| Filter_Result := ["a"; "c"] |}
  else inl (New "unexpected end of JSON input").

Definition sample_env (srv : nat -> HTTPRequest -> Reply) : Env :=
  {| UserAgent := "opa-client";
     json_Marshal_query := go_Marshal_query plain_quote;
     json_Marshal_filter := go_Marshal_filter plain_quote;
     json_Unmarshal_query := sample_Unmarshal_query;
     json_Unmarshal_filter := sample_Unmarshal_filter;
     server := srv |}.

(** An encoder that fails, as [json.Marshal] does on unsupported values. *)
Definition failing_env : Env :=
  {| UserAgent := "opa-client";
     json_Marshal_query := fun _ => inl (New "json: unsupported value");
     json_Marshal_filter := fun _ => inl (New "json: unsupported value");
     json_Unmarshal_query := sample_Unmarshal_query;
     json_Unmarshal_filter := sample_Unmarshal_filter;
     server := fun _ _ => Response 0%N http_StatusOK body_result_false |}.

(** Networks: unreachable (every attempt takes two seconds and fails),
    answering at once, and answering on the third attempt. *)
Definition unreachable : nat -> HTTPRequest -> Reply :=
  fun _ _ => NetworkError (2 * Second)%N (New "connection refused").

Definition answers (body : string) : nat -> HTTPRequest -> Reply :=
  fun _ _ => Response 0%N http_StatusOK body.

Definition answers_third (body : string) : nat -> HTTPRequest -> Reply :=
  fun n _ =>
    match n with
    | 0 => NetworkError 0%N (New "connection refused")
    | 1 => Response 0%N 503%N ""
    | _ => Response 0%N http_StatusOK body
    end.

(** What both query functions do with the retrier's outcome: report the
    timeout, or decode the response body with [dec] and return [value] of
    the decoded response; [default] accompanies every error. *)
Definition finish {D R} (c : HTTPClient) (dec : string -> error + D)
    (value : D -> R) (default : R) (done : string)
    (o : outcome (option error * (string * option error)))
    : outcome (R * option error) :=
  match o with
  | Returns (Some err, _) w2 =>
      Returns (default, Some (Wrap err "Failed to send HTTP request to OPA"))
        (logged (verbose c) LevelError "Failed to send HTTP request to OPA" w2)
  | Returns (None, (responseBody, _)) w2 =>
      match dec responseBody with
      | inl err =>
          Returns (default, Some (Wrap err "Failed to unmarshal response body"))
            (decoding c w2)
      | inr d =>
          Returns (value d, None) (logged (verbose c) LevelInfo done (decoding c w2))
      end
  | Panics r w2 => Panics r w2
  | Diverges => Diverges
  end.

(** A run on the network path from [w] to [w'], with the events [new] it
    adds after serialising the request (most recent first), its result [v]
    and its error [err]. *)
Definition run_facts {D R} (E : Env) (dec : string -> error + D) (value : D -> R)
    (default : R) (rq : HTTPRequest) (w w' : World) (new : list Event)
    (v : R) (err : option error) : Prop :=
  trace w' = (new ++ EvMarshal :: trace w)%list /\
  filter is_retry new = [EvRetry (6 * Second)%N (1 * Second)%N] /\
  filter is_marshal new = [] /\
  Forall (query_event rq (clock w + 6 * Second)%N) new /\
  rounds_shape (exchange_events new) = true /\
  1 <= List.length (filter is_send new) <= 7 /\
  attempts w' = List.length (filter is_send new) + attempts w /\
  match err with
  | None =>
      exists n body d,
        attempts w' = S n /\
        reply_body http_StatusOK (server E n rq) = Some body /\
        dec body = inr d /\ v = value d /\
        filter is_unmarshal new = [EvUnmarshal]
  | Some e =>
      v = default /\
      ((e = Wrap timed_out "Failed to send HTTP request to OPA" /\
        filter is_unmarshal new = [] /\
        forall i, i < List.length (filter is_send new) ->
          reply_body http_StatusOK (server E (attempts w + i) rq) = None)
       \/
       (exists n body cause rest,
          attempts w' = S n /\
          reply_body http_StatusOK (server E n rq) = Some body /\
          dec body = inl cause /\
          e = Wrap cause "Failed to unmarshal response body" /\
          new = EvUnmarshal :: rest /\ filter is_unmarshal rest = []))
  end.

(** The requests the two functions post, given the serialised body. *)
Definition queryPost (E : Env) (c : HTTPClient) (requestBody : string) : HTTPRequest :=
  postRequest E (address c ++ permissionQueryPath c) requestBody.

Definition filterPost (E : Env) (c : HTTPClient) (requestBody : string) : HTTPRequest :=
  postRequest E (address c ++ permissionFilterPath c) requestBody.

(** The batch result for a decoded filter response. *)
Definition filterVerdicts (resources : list string) (resp : PermissionFilterResponse)
    : option (list bool) :=
  Some (map (slices_Contains (Filter_Result resp)) resources).

(** The single-query request document [json.Marshal] produces: the "input"
    object with the fields that are not empty. *)
Definition query_document (resource action : string) (ids : list string) : json :=
  JObject [("input", JObject (omitempty_string "resource" resource
                              ++ omitempty_string "action" action
                              ++ omitempty_strings "ids" ids))].

(** Two allowed-subsets that agree on which of [resources] they contain. *)
Definition same_members (resources allowed allowed' : list string) : Prop :=
  forall resource, In resource resources ->
    (In resource allowed <-> In resource allowed').

(** A filter-response decoder whose allowed-subset is rewritten by
    [shuffle]. *)
Definition shuffled (shuffle : list string -> list string)
    (dec : string -> error + PermissionFilterResponse)
    (body : string) : error + PermissionFilterResponse :=
  match dec body with
  | inl e => inl e
  | inr resp => inr {| Filter_Result := shuffle (Filter_Result resp) |}
  end.

(** ** Logs, and runs up to logs *)

Definition is_log (e : Event) : bool :=
  match e with EvLog _ _ => true | _ => false end.

Definition is_warning (e : Event) : bool :=
  match e with EvLog LevelWarn _ => true | _ => false end.

(** The world with its log lines erased. *)
Definition silenced (w : World) : World :=
  {| clock := clock w; trace := filter (fun e => negb (is_log e)) (trace w) |}.

Definition silence {A} (o : outcome A) : outcome A :=
  match o with
  | Returns a w => Returns a (silenced w)
  | Panics r w => Panics r (silenced w)
  | Diverges => Diverges
  end.

(** The same client with another verbosity. *)
Definition with_verbose (c : HTTPClient) (b : bool) : HTTPClient :=
  {| address := address c;
     permissionQueryPath := permissionQueryPath c;
     permissionFilterPath := permissionFilterPath c;
     requestTimeout := requestTimeout c;
     verbose := b;
     overrideHeaderValue := overrideHeaderValue c;
     httpClient_Timeout := httpClient_Timeout c;
     httpClient_InsecureSkipVerify := httpClient_InsecureSkipVerify c |}.

Definition warnings (w : World) : nat := List.length (filter is_warning (trace w)).

(** The filter request document [json.Marshal] produces: the "input" object
    with the fields that are not empty. *)
Definition filter_document (resources : list string) (action : string)
    (ids : list string) : json :=
  JObject [("input", JObject (omitempty_strings "resources" resources
                              ++ omitempty_string "action" action
                              ++ omitempty_strings "ids" ids))].

(** An allowed-subset rewriting that only adds entries. *)
Definition only_adds (shuffle : list string -> list string) : Prop :=
  forall allowed resource, In resource allowed -> In resource (shuffle allowed).

(** Every position allowed in [results] is allowed in [results']. *)
Definition allows_at_least (results results' : list bool) : Prop :=
  forall i, nth_error results i = Some true -> nth_error results' i = Some true.

(** Sample options and clients for the properties below. *)
Definition forbidden_options : PermissionOptions :=
  {| MemberIds := ["u1"]; RaiseForbidden := true; OverrideHeaderValue := "" |}.

Definition wrong_secret_options : PermissionOptions :=
  {| MemberIds := ["u1"]; RaiseForbidden := false; OverrideHeaderValue := "guess" |}.

Definition body_result_empty : string :=
  "{" ++ dquote ++ "result" ++ dquote ++ ":[]}".

Definition sample_Unmarshal_filter_wide (body : string) : error + PermissionFilterResponse :=
  if body =? body_result_a_c then inr {| Filter_Result := ["a"; "c"] |}
  else if body =? body_result_empty then inr {| Filter_Result := [] |}
  else inl (New "unexpected end of JSON input").

(** Whether a returned error reports that the transport never succeeded. *)
Definition transport_failed (err : option error) : bool :=
  match err with
  | Some (Wrap _ msg) => msg =? "Failed to send HTTP request to OPA"
  | _ => false
  end.

(** None of the seven attempts that fit in the retry window (numbers [n] to
    [n + 6]: six seconds, one second apart) is answered with the expected
    status; later answers are not constrained. *)
Definition fails_through_window (E : Env) (rq : HTTPRequest) (n : nat) : Prop :=
  forall i, i < 7 ->
    reply_body (rq_expectedStatus rq) (server E (n + i) rq) = None.

(** A network that refuses the first seven attempts and answers from the
    eighth on. *)
Definition answers_eighth (body : string) : nat -> HTTPRequest -> Reply :=
  fun n _ =>
    if (n <? 7)%nat then NetworkError 0%N (New "connection refused")
    else Response 0%N http_StatusOK body.

(** * Properties *)

Open Scope list_scope.

(** ** Slices and the two loops *)

Lemma slice_set_app (pre post : list bool) (x v : bool) :
  slice_set (pre ++ x :: post) (List.length pre) v = Some (pre ++ v :: post).
Proof.
  induction pre as [|p pre IH]; simpl.
  - reflexivity.
  - rewrite IH. reflexivity.
Qed.

Lemma assign_app (pre post : list bool) (x v : bool) (w : World) :
  assign (pre ++ x :: post) (List.length pre) v w = Returns (pre ++ v :: post) w.
Proof. unfold assign. rewrite slice_set_app. reflexivity. Qed.

Lemma repeat_snoc {A} (x : A) (n : nat) : repeat x n ++ [x] = x :: repeat x n.
Proof. induction n; simpl; congruence. Qed.

Lemma allowAll_loop_spec (rounds : nat) (pre : list bool) (w : World) :
  allowAll_loop rounds (List.length pre) (pre ++ repeat false rounds) w
  = Returns (pre ++ repeat true rounds) w.
Proof.
  revert pre. induction rounds as [|n IH]; intros pre; simpl.
  - reflexivity.
  - unfold bind. rewrite assign_app.
    replace (pre ++ true :: repeat false n) with ((pre ++ [true]) ++ repeat false n)
      by (rewrite <- app_assoc; reflexivity).
    replace (S (List.length pre)) with (List.length (pre ++ [true]))
      by (rewrite length_app; simpl; lia).
    rewrite IH. rewrite <- app_assoc. reflexivity.
Qed.

Lemma allowAll_make (n : nat) (w : World) :
  allowAll (make_bools n) w = Returns (repeat true n) w.
Proof.
  unfold allowAll, make_bools. rewrite repeat_length.
  exact (allowAll_loop_spec n [] w).
Qed.

Lemma markAllowed_spec (allowed resources : list string) (pre : list bool) (w : World) :
  markAllowed allowed (List.length pre) resources
    (pre ++ repeat false (List.length resources)) w
  = Returns (pre ++ map (slices_Contains allowed) resources) w.
Proof.
  revert pre. induction resources as [|r rest IH]; intros pre; simpl.
  - reflexivity.
  - unfold bind.
    assert (Hstep : (if slices_Contains allowed r
                     then assign (pre ++ false :: repeat false (List.length rest))
                            (List.length pre) true
                     else ret (pre ++ false :: repeat false (List.length rest))) w
                    = Returns ((pre ++ [slices_Contains allowed r])
                               ++ repeat false (List.length rest)) w).
    { destruct (slices_Contains allowed r).
      - rewrite assign_app, <- app_assoc. reflexivity.
      - rewrite <- app_assoc. reflexivity. }
    rewrite Hstep.
    replace (S (List.length pre)) with (List.length (pre ++ [slices_Contains allowed r]))
      by (rewrite length_app; simpl; lia).
    rewrite IH, <- app_assoc. reflexivity.
Qed.

Lemma markAllowed_make (allowed resources : list string) (w : World) :
  markAllowed allowed 0 resources (make_bools (List.length resources)) w
  = Returns (map (slices_Contains allowed) resources) w.
Proof. exact (markAllowed_spec allowed resources [] w). Qed.

Lemma slices_Contains_In (s : list string) (v : string) :
  slices_Contains s v = true <-> In v s.
Proof.
  unfold slices_Contains. rewrite existsb_exists. split.
  - intros [x [Hin Heq]]. apply String.eqb_eq in Heq. subst. exact Hin.
  - intros Hin. exists v. split; [exact Hin | apply String.eqb_refl].
Qed.

(** ** The monad's primitives *)

Lemma when_log_run (b : bool) (lvl : Level) (msg : string) (w : World) :
  when b (log lvl msg) w = Returns tt (logged b lvl msg w).
Proof. destruct b; reflexivity. Qed.

Lemma overrideMatches_some (c : HTTPClient) (o : PermissionOptions) (w : World) :
  overrideMatches c (Some o) w = Returns (bypasses c o) w.
Proof.
  unfold overrideMatches, bypasses.
  destruct (overrideHeaderValue c =? "")%string; reflexivity.
Qed.

Lemma logged_trace (b : bool) (lvl : Level) (msg : string) (w : World) :
  trace (logged b lvl msg w) = (if b then [EvLog lvl msg] else []) ++ trace w.
Proof. destruct b; reflexivity. Qed.

Lemma logged_clock (b : bool) (lvl : Level) (msg : string) (w : World) :
  clock (logged b lvl msg w) = clock w.
Proof. destruct b; reflexivity. Qed.

Lemma logged_attempts (b : bool) (lvl : Level) (msg : string) (w : World) :
  attempts (logged b lvl msg w) = attempts w.
Proof. destruct b; reflexivity. Qed.

Lemma sent_attempts (E : Env) (rq : HTTPRequest) (w : World) :
  attempts (sent E rq w) = S (attempts w).
Proof. reflexivity. Qed.

(** ** One probe is one transport attempt *)

Lemma sendProbe_run (E : Env) (url body : string) (a : string * option error)
    (w : World) :
  let rq := postRequest E url body in
  sendProbe E url body (requestHeaders E) a w =
  match reply_body http_StatusOK (server E (attempts w) rq) with
  | Some b => Returns (true, (b, None)) (sent E rq w)
  | None =>
      Returns (false, (""%string,
                       Some (reply_error http_StatusOK (server E (attempts w) rq))))
        (emit (EvLog LevelWarn "Failed to send HTTP request to OPA, retrying")
              (sent E rq w))
  end.
Proof.
  intros rq. unfold sendProbe, bind, sendHTTPRequest, sent. fold (postRequest E url body).
  fold rq. destruct (server E (attempts w) rq) as [d e|d st b]; simpl.
  - reflexivity.
  - destruct (st =? http_StatusOK)%N; reflexivity.
Qed.

Lemma retryLoop_S {A} (fuel : nat) (deadline interval : Duration)
    (callback : A -> M (bool * A)) (a : A) (w : World) :
  retryLoop (S fuel) deadline interval callback a w =
  if (clock w <=? deadline)%N then
    match callback a w with
    | Returns (ok, a') w1 =>
        if ok then Returns (None, a') w1
        else retryLoop fuel deadline interval callback a'
               (emit (EvSleep interval) (advance interval w1))
    | Panics r w1 => Panics r w1
    | Diverges => Diverges
    end
  else Returns (Some timed_out, a) w.
Proof.
  simpl. unfold bind, now.
  destruct (clock w <=? deadline)%N; [|reflexivity].
  destruct (callback a w) as [[ok a'] w1| |]; try reflexivity.
  destruct ok; reflexivity.
Qed.

(** ** The retrier around the probe *)

Lemma exchange_events_first_round (new : list Event) (t : Duration)
    (rq : HTTPRequest) (d : Duration) (lvl : Level) (msg : string) :
  exchange_events (new ++ [EvSleep d; EvLog lvl msg; EvSend t rq])
  = EvSend t rq :: EvSleep d :: exchange_events new.
Proof.
  unfold exchange_events. rewrite filter_app, rev_app_distr. reflexivity.
Qed.

Lemma attempts_app (w w' : World) (new : list Event) :
  trace w' = new ++ trace w ->
  attempts w' = List.length (filter is_send new) + attempts w.
Proof.
  intros H. unfold attempts. rewrite H, filter_app, length_app. reflexivity.
Qed.

(** Every run of the retry loop with enough fuel for the time left returns,
    and the events it adds are rounds of one attempt each. *)
Lemma retryLoop_run (E : Env) (url body : string) (interval deadline : Duration) :
  (0 < interval)%N ->
  forall (fuel : nat) (a : string * option error) (w : World),
    (deadline < clock w + interval * N.of_nat fuel)%N ->
    exists err rb e' w' new,
      retryLoop (S fuel) deadline interval
        (sendProbe E url body (requestHeaders E)) a w
      = Returns (err, (rb, e')) w'
      /\ retry_facts E (postRequest E url body) interval deadline w w' new err rb
      /\ List.length (filter is_send new) <= fuel
      /\ ((clock w <= deadline)%N -> 1 <= List.length (filter is_send new)).
Proof.
  intros Hpos. set (rq := postRequest E url body).
  induction fuel as [|f IH]; intros [rb0 e0] w Hfuel; rewrite retryLoop_S.
  - destruct (N.leb_spec (clock w) deadline) as [Hle|Hgt]; [lia|].
    exists (Some timed_out), rb0, e0, w, []. repeat split; simpl; auto; try lia.
  - destruct (N.leb_spec (clock w) deadline) as [Hle|Hgt].
    + rewrite sendProbe_run. fold rq.
      destruct (reply_body http_StatusOK (server E (attempts w) rq)) as [b|] eqn:Hreply.
      * exists None, b, None, (sent E rq w), [EvSend (clock w) rq].
        repeat split; simpl; try lia.
        -- repeat constructor. exact Hle.
        -- exists (attempts w). split; [reflexivity | exact Hreply].
      * set (w2 := emit (EvSleep interval)
                     (advance interval
                        (emit (EvLog LevelWarn "Failed to send HTTP request to OPA, retrying")
                              (sent E rq w)))).
        destruct (IH (""%string, Some (reply_error http_StatusOK (server E (attempts w) rq))) w2)
          as (err & rb & e' & w' & new & Hrun & Hfacts & Hcount).
        { unfold w2; simpl. rewrite Nat2N.inj_succ, N.mul_succ_r in Hfuel. lia. }
        destruct Hfacts as (Htrace & Hclock & Hall & Hshape & Hverdict).
        exists err, rb, e', w',
          (new ++ [EvSleep interval;
                   EvLog LevelWarn "Failed to send HTTP request to OPA, retrying";
                   EvSend (clock w) rq]).
        split; [exact Hrun|]. split; [|rewrite filter_app, length_app; simpl; lia].
        split; [rewrite Htrace, <- app_assoc; reflexivity|].
        split; [unfold w2 in Hclock; simpl in Hclock; lia|].
        split.
        { apply Forall_app. split; [exact Hall|].
          repeat constructor. exact Hle. }
        split; [rewrite exchange_events_first_round; simpl; exact Hshape|].
        destruct err as [e|].
        -- destruct Hverdict as [He Hfail]. split; [exact He|].
           intros i Hi. rewrite filter_app, length_app in Hi. simpl in Hi.
           destruct i as [|i].
           ++ rewrite Nat.add_0_r. exact Hreply.
           ++ specialize (Hfail i). unfold w2 in Hfail.
              change (attempts _) with (S (attempts w)) in Hfail.
              replace (attempts w + S i) with (S (attempts w) + i) by lia.
              apply Hfail. lia.
        -- exact Hverdict.
    + exists (Some timed_out), rb0, e0, w, []. repeat split; simpl; auto; try lia.
Qed.

Lemma succeeds_after_bound (E : Env) (rq : HTTPRequest) (interval deadline : Duration)
    (k n : nat) (t : Duration) (body : string) :
  succeeds_after E rq interval deadline k n t body ->
  (t + interval * N.of_nat k <= deadline)%N.
Proof.
  revert n t. induction k as [|k IH]; intros n t; simpl succeeds_after.
  - intros [Ht _]. simpl. lia.
  - intros (Ht & _ & Hrest). apply IH in Hrest.
    rewrite Nat2N.inj_succ, N.mul_succ_r. lia.
Qed.

(** A transport that fails [k] times and then answers in time makes the
    retry loop report success with that answer's body. *)
Lemma retryLoop_succeeds (E : Env) (url body : string) (interval deadline : Duration)
    (k : nat) :
  forall (fuel : nat) (a : string * option error) (w : World) (b : string),
    k < fuel ->
    succeeds_after E (postRequest E url body) interval deadline k
      (attempts w) (clock w) b ->
    exists w',
      retryLoop fuel deadline interval (sendProbe E url body (requestHeaders E)) a w
      = Returns (None, (b, None)) w'
      /\ attempts w' = attempts w + S k.
Proof.
  set (rq := postRequest E url body).
  induction k as [|k IH]; intros fuel a w b Hfuel Hs;
    (destruct fuel as [|fuel]; [lia|]); rewrite retryLoop_S;
    simpl succeeds_after in Hs.
  - destruct Hs as [Ht Hreply].
    destruct (N.leb_spec (clock w) deadline) as [_|Hgt]; [|lia].
    rewrite sendProbe_run. fold rq. change (rq_expectedStatus rq) with http_StatusOK in Hreply.
    rewrite Hreply. exists (sent E rq w). split; [reflexivity|].
    rewrite sent_attempts. lia.
  - destruct Hs as (Ht & Hreply & Hrest).
    destruct (N.leb_spec (clock w) deadline) as [_|Hgt]; [|lia].
    rewrite sendProbe_run. fold rq. change (rq_expectedStatus rq) with http_StatusOK in Hreply.
    rewrite Hreply.
    match goal with |- context [retryLoop fuel _ _ _ ?a' ?w2] =>
      destruct (IH fuel a' w2 b) as (w' & Hrun & Hatt) end.
    + lia.
    + exact Hrest.
    + exists w'. split; [exact Hrun|]. rewrite Hatt.
      change (attempts (emit _ (advance _ (emit _ (sent E rq w))))) with (S (attempts w)).
      lia.
Qed.

Lemma retry_fuel : N.to_nat (6 * Second / (1 * Second)) = 6.
Proof. reflexivity. Qed.

(** The retrier as both query functions call it: six seconds in all, one
    second between attempts. It always returns. *)
Lemma retryUntilSuccessful_run (E : Env) (url body : string)
    (a : string * option error) (w : World) :
  exists err rb e' w' new,
    retryUntilSuccessful (6 * Second)%N (1 * Second)%N
      (sendProbe E url body (requestHeaders E)) a w
    = Returns (err, (rb, e')) w'
    /\ retry_facts E (postRequest E url body) (1 * Second)%N (clock w + 6 * Second)%N
         (emit (EvRetry (6 * Second)%N (1 * Second)%N) w) w' new err rb
    /\ 1 <= List.length (filter is_send new) <= 7.
Proof.
  unfold retryUntilSuccessful, bind, tell, now. rewrite retry_fuel.
  destruct (retryLoop_run E url body (1 * Second)%N (clock w + 6 * Second)%N
              eq_refl 7 a (emit (EvRetry (6 * Second)%N (1 * Second)%N) w))
    as (err & rb & e' & w' & new & Hrun & Hfacts & Hmax & Hmin).
  - change (clock (emit _ w)) with (clock w).
    change (N.of_nat 7) with 7%N. unfold Second. lia.
  - exists err, rb, e', w', new. split; [exact Hrun|]. split; [exact Hfacts|].
    split; [|exact Hmax]. apply Hmin.
    change (clock (emit _ w)) with (clock w). lia.
Qed.

Lemma retryUntilSuccessful_succeeds (E : Env) (url body : string)
    (a : string * option error) (w : World) (k : nat) (b : string) :
  succeeds_after E (postRequest E url body) (1 * Second)%N (clock w + 6 * Second)%N k
    (attempts w) (clock w) b ->
  exists w',
    retryUntilSuccessful (6 * Second)%N (1 * Second)%N
      (sendProbe E url body (requestHeaders E)) a w
    = Returns (None, (b, None)) w'
    /\ attempts w' = attempts w + S k.
Proof.
  intros Hs. unfold retryUntilSuccessful, bind, tell, now. rewrite retry_fuel.
  apply (retryLoop_succeeds E url body _ _ k _ a
           (emit (EvRetry (6 * Second)%N (1 * Second)%N) w) b); [|exact Hs].
  apply succeeds_after_bound in Hs. unfold Second in Hs. lia.
Qed.

(** ** The two query functions, path by path *)

Lemma QueryPermissions_bypass (E : Env) (c : HTTPClient) (resource : string)
    (action : Action) (o : PermissionOptions) (w : World) :
  bypasses c o = true ->
  QueryPermissions E c resource action (Some o) w = Returns (true, None) w.
Proof.
  intros Hb. unfold QueryPermissions, bind. rewrite overrideMatches_some, Hb.
  reflexivity.
Qed.

Lemma QueryPermissionsMultiResources_bypass (E : Env) (c : HTTPClient)
    (resources : list string) (action : Action) (o : PermissionOptions) (w : World) :
  bypasses c o = true ->
  QueryPermissionsMultiResources E c resources action (Some o) w
  = Returns (Some (repeat true (List.length resources)), None) w.
Proof.
  intros Hb. unfold QueryPermissionsMultiResources, bind.
  rewrite overrideMatches_some, Hb, allowAll_make. reflexivity.
Qed.

Lemma QueryPermissions_encode_error (E : Env) (c : HTTPClient) (resource : string)
    (action : Action) (o : PermissionOptions) (w : World) (e : error) :
  bypasses c o = false ->
  json_Marshal_query E (queryRequest resource action o) = inl e ->
  QueryPermissions E c resource action (Some o) w
  = Returns (false, Some (Wrap e "Failed to generate request body")) (emit EvMarshal w).
Proof.
  intros Hb Hm. unfold QueryPermissions, bind. rewrite overrideMatches_some, Hb.
  unfold queryRequest in Hm. simpl. rewrite Hm. reflexivity.
Qed.

Lemma QueryPermissionsMultiResources_encode_error (E : Env) (c : HTTPClient)
    (resources : list string) (action : Action) (o : PermissionOptions) (w : World)
    (e : error) :
  bypasses c o = false ->
  json_Marshal_filter E (filterRequest resources action o) = inl e ->
  QueryPermissionsMultiResources E c resources action (Some o) w
  = Returns (None, Some (Wrap e "Failed to generate request body")) (emit EvMarshal w).
Proof.
  intros Hb Hm. unfold QueryPermissionsMultiResources, bind.
  rewrite overrideMatches_some, Hb.
  unfold filterRequest in Hm. simpl. rewrite Hm. reflexivity.
Qed.

Lemma QueryPermissions_network (E : Env) (c : HTTPClient) (resource : string)
    (action : Action) (o : PermissionOptions) (w : World) (requestBody : string) :
  bypasses c o = false ->
  json_Marshal_query E (queryRequest resource action o) = inr requestBody ->
  QueryPermissions E c resource action (Some o) w =
  match retryUntilSuccessful (6 * Second)%N (1 * Second)%N
          (sendProbe E (address c ++ permissionQueryPath c)%string requestBody
             (requestHeaders E)) (""%string, None) (encoded c w) with
  | Returns (Some err, _) w2 =>
      Returns (false, Some (Wrap err "Failed to send HTTP request to OPA"))
        (logged (verbose c) LevelError "Failed to send HTTP request to OPA" w2)
  | Returns (None, (responseBody, _)) w2 =>
      match json_Unmarshal_query E responseBody with
      | inl err =>
          Returns (false, Some (Wrap err "Failed to unmarshal response body"))
            (decoding c w2)
      | inr permissionResponse =>
          Returns (Query_Result permissionResponse, None)
            (logged (verbose c) LevelInfo
               "Successfully unmarshalled permission response" (decoding c w2))
      end
  | Panics r w2 => Panics r w2
  | Diverges => Diverges
  end.
Proof.
  intros Hb Hm. unfold QueryPermissions, bind. rewrite overrideMatches_some, Hb.
  unfold queryRequest in Hm. simpl. rewrite Hm, when_log_run. fold (encoded c w).
  destruct (retryUntilSuccessful _ _ _ _ _) as [[[err|] [responseBody e']] w2| |];
    try reflexivity.
  - rewrite when_log_run. reflexivity.
  - rewrite when_log_run. unfold tell. fold (decoding c w2).
    destruct (json_Unmarshal_query E responseBody); [reflexivity|].
    rewrite when_log_run. reflexivity.
Qed.

Lemma QueryPermissionsMultiResources_network (E : Env) (c : HTTPClient)
    (resources : list string) (action : Action) (o : PermissionOptions) (w : World)
    (requestBody : string) :
  bypasses c o = false ->
  json_Marshal_filter E (filterRequest resources action o) = inr requestBody ->
  QueryPermissionsMultiResources E c resources action (Some o) w =
  match retryUntilSuccessful (6 * Second)%N (1 * Second)%N
          (sendProbe E (address c ++ permissionFilterPath c)%string requestBody
             (requestHeaders E)) (""%string, None) (encoded c w) with
  | Returns (Some err, _) w2 =>
      Returns (None, Some (Wrap err "Failed to send HTTP request to OPA"))
        (logged (verbose c) LevelError "Failed to send HTTP request to OPA" w2)
  | Returns (None, (responseBody, _)) w2 =>
      match json_Unmarshal_filter E responseBody with
      | inl err =>
          Returns (None, Some (Wrap err "Failed to unmarshal response body"))
            (decoding c w2)
      | inr permissionFilterResponse =>
          Returns (Some (map (slices_Contains (Filter_Result permissionFilterResponse))
                           resources), None)
            (logged (verbose c) LevelInfo
               "Successfully unmarshalled permission filter response" (decoding c w2))
      end
  | Panics r w2 => Panics r w2
  | Diverges => Diverges
  end.
Proof.
  intros Hb Hm. unfold QueryPermissionsMultiResources, bind.
  rewrite overrideMatches_some, Hb.
  unfold filterRequest in Hm. simpl. rewrite Hm, when_log_run. fold (encoded c w).
  destruct (retryUntilSuccessful _ _ _ _ _) as [[[err|] [responseBody e']] w2| |];
    try reflexivity.
  - rewrite when_log_run. reflexivity.
  - rewrite when_log_run. unfold tell. fold (decoding c w2).
    destruct (json_Unmarshal_filter E responseBody); [reflexivity|].
    rewrite when_log_run, markAllowed_make. reflexivity.
Qed.

(** ** The exchange as a whole *)

Lemma probe_events_quiet (rq : HTTPRequest) (interval deadline : Duration)
    (l : list Event) :
  Forall (probe_event rq interval deadline) l ->
  filter is_retry l = [] /\ filter is_marshal l = [] /\ filter is_unmarshal l = [].
Proof.
  induction 1 as [|e l He _ IH]; [repeat split|].
  destruct IH as (IH1 & IH2 & IH3).
  destruct e; simpl in *; try contradiction; auto.
Qed.

Lemma probe_event_query_event (rq : HTTPRequest) (deadline : Duration) (e : Event) :
  probe_event rq (1 * Second)%N deadline e -> query_event rq deadline e.
Proof. destruct e; simpl; intros H; try contradiction; auto. Qed.

(** Everything that happens between the encoding of the request and the
    decoding of the response, for either query function: the retrier is
    entered once, makes between one and seven attempts for the same request,
    all started within six seconds, and always returns. *)
Lemma network_exchange (E : Env) (c : HTTPClient) (url requestBody : string)
    (w : World) :
  let rq := postRequest E url requestBody in
  exists err body e' w2 new,
    retryUntilSuccessful (6 * Second)%N (1 * Second)%N
      (sendProbe E url requestBody (requestHeaders E)) (""%string, None) (encoded c w)
    = Returns (err, (body, e')) w2
    /\ trace w2 = new ++ EvMarshal :: trace w
    /\ filter is_retry new = [EvRetry (6 * Second)%N (1 * Second)%N]
    /\ filter is_marshal new = []
    /\ filter is_unmarshal new = []
    /\ Forall (query_event rq (clock w + 6 * Second)%N) new
    /\ rounds_shape (exchange_events new) = true
    /\ 1 <= List.length (filter is_send new) <= 7
    /\ attempts w2 = List.length (filter is_send new) + attempts w
    /\ match err with
       | None =>
           exists n, attempts w2 = S n /\
             reply_body http_StatusOK (server E n rq) = Some body
       | Some e =>
           e = timed_out /\
           forall i, i < List.length (filter is_send new) ->
             reply_body http_StatusOK (server E (attempts w + i) rq) = None
       end.
Proof.
  intros rq.
  destruct (retryUntilSuccessful_run E url requestBody (""%string, None) (encoded c w))
    as (err & body & e' & w2 & new & Hrun & Hfacts & Hcount).
  fold rq in Hfacts.
  destruct Hfacts as (Htrace & Hclock & Hall & Hshape & Hverdict).
  destruct (probe_events_quiet _ _ _ _ Hall) as (Hq1 & Hq2 & Hq3).
  assert (Hclk : clock (encoded c w) = clock w)
    by (unfold encoded; rewrite logged_clock; reflexivity).
  assert (Hatt : attempts (encoded c w) = attempts w)
    by (unfold encoded; rewrite logged_attempts; reflexivity).
  rewrite Hclk in Hall.
  change (attempts (emit (EvRetry (6 * Second)%N (1 * Second)%N) (encoded c w)))
    with (attempts (encoded c w)) in Hverdict.
  rewrite ?Hatt in Hverdict.
  set (pre := EvRetry (6 * Second)%N (1 * Second)%N
              :: (if verbose c then [EvLog LevelInfo "Sending request to OPA"] else [])).
  assert (Hpre : trace w2 = (new ++ pre) ++ EvMarshal :: trace w).
  { rewrite Htrace. unfold pre, encoded. simpl trace. rewrite logged_trace.
    simpl. rewrite <- !app_assoc. reflexivity. }
  exists err, body, e', w2, (new ++ pre).
  split; [exact Hrun|]. split; [exact Hpre|].
  assert (Hsends : filter is_send (new ++ pre) = filter is_send new).
  { rewrite filter_app. unfold pre. destruct (verbose c); simpl; apply app_nil_r. }
  repeat split.
  - rewrite filter_app, Hq1. unfold pre. destruct (verbose c); reflexivity.
  - rewrite filter_app, Hq2. unfold pre. destruct (verbose c); reflexivity.
  - rewrite filter_app, Hq3. unfold pre. destruct (verbose c); reflexivity.
  - apply Forall_app. split.
    + eapply Forall_impl; [|exact Hall]. intros e. apply probe_event_query_event.
    + unfold pre. destruct (verbose c); repeat constructor.
  - unfold exchange_events in *. rewrite filter_app.
    replace (filter (fun e => is_send e || is_sleep e) pre) with (@nil Event)
      by (unfold pre; destruct (verbose c); reflexivity).
    rewrite app_nil_r. exact Hshape.
  - rewrite Hsends. lia.
  - rewrite Hsends. lia.
  - unfold attempts. rewrite Hpre, filter_app, length_app, Hsends. reflexivity.
  - destruct err as [e|].
    + destruct Hverdict as [He Hfail]. split; [exact He|].
      rewrite Hsends. exact Hfail.
    + exact Hverdict.
Qed.

Lemma QueryPermissions_nil_options (E : Env) (c : HTTPClient) (resource : string)
    (action : Action) (w : World) :
  QueryPermissions E c resource action None w
  = Panics "invalid memory address or nil pointer dereference" w.
Proof.
  unfold QueryPermissions, bind, overrideMatches.
  destruct (overrideHeaderValue c =? "")%string; reflexivity.
Qed.

Lemma QueryPermissionsMultiResources_nil_options (E : Env) (c : HTTPClient)
    (resources : list string) (action : Action) (w : World) :
  QueryPermissionsMultiResources E c resources action None w
  = Panics "invalid memory address or nil pointer dereference" w.
Proof.
  unfold QueryPermissionsMultiResources, bind, overrideMatches.
  destruct (overrideHeaderValue c =? "")%string; reflexivity.
Qed.

(** Case analysis of a run on a non-nil options pointer: bypass, encoding
    failure, or the network path with the retrier's verdict. *)
Ltac query_cases E c o w network encode_error bypass :=
  let Hb := fresh "Hb" in
  let Hm := fresh "Hm" in
  destruct (bypasses c o) eqn:Hb;
  [ rewrite (bypass _ _ _ _ _ _ Hb)
  | match goal with
    | |- context [QueryPermissions _ _ ?r ?a _ _] =>
        destruct (json_Marshal_query E (queryRequest r a o)) as [?cause|?requestBody] eqn:Hm
    | |- context [QueryPermissionsMultiResources _ _ ?r ?a _ _] =>
        destruct (json_Marshal_filter E (filterRequest r a o)) as [?cause|?requestBody] eqn:Hm
    end;
    [ rewrite (encode_error _ _ _ _ _ _ _ Hb Hm)
    | rewrite (network _ _ _ _ _ _ _ Hb Hm) ] ].

Lemma QueryPermissions_error_default (E : Env) (c : HTTPClient) (resource : string)
    (action : Action) (opts : option PermissionOptions) (w w' : World)
    (v : bool) (e : error) :
  QueryPermissions E c resource action opts w = Returns (v, Some e) w' ->
  v = false /\ failure_kind e.
Proof.
  destruct opts as [o|]; [|rewrite QueryPermissions_nil_options; discriminate].
  query_cases E c o w QueryPermissions_network QueryPermissions_encode_error
    QueryPermissions_bypass.
  - discriminate.
  - intros H. inversion H. split; [reflexivity|]. exists cause. auto.
  - destruct (retryUntilSuccessful _ _ _ _ _) as [[[err|] [body e']] w2| |];
      try discriminate.
    + intros H. inversion H. split; [reflexivity|]. exists err. auto.
    + destruct (json_Unmarshal_query E body) as [cause|resp]; [|discriminate].
      intros H. inversion H. split; [reflexivity|]. exists cause. auto.
Qed.

Lemma QueryPermissionsMultiResources_error_default (E : Env) (c : HTTPClient)
    (resources : list string) (action : Action) (opts : option PermissionOptions)
    (w w' : World) (r : option (list bool)) (e : error) :
  QueryPermissionsMultiResources E c resources action opts w = Returns (r, Some e) w' ->
  r = None /\ failure_kind e.
Proof.
  destruct opts as [o|];
    [|rewrite QueryPermissionsMultiResources_nil_options; discriminate].
  query_cases E c o w QueryPermissionsMultiResources_network
    QueryPermissionsMultiResources_encode_error QueryPermissionsMultiResources_bypass.
  - discriminate.
  - intros H. inversion H. split; [reflexivity|]. exists cause. auto.
  - destruct (retryUntilSuccessful _ _ _ _ _) as [[[err|] [body e']] w2| |];
      try discriminate.
    + intros H. inversion H. split; [reflexivity|]. exists err. auto.
    + destruct (json_Unmarshal_filter E body) as [cause|resp]; [|discriminate].
      intros H. inversion H. split; [reflexivity|]. exists cause. auto.
Qed.

Lemma finish_run {D R} (E : Env) (c : HTTPClient) (dec : string -> error + D)
    (value : D -> R) (default : R) (done url requestBody : string) (w : World) :
  exists v err w' new,
    finish c dec value default done
      (retryUntilSuccessful (6 * Second)%N (1 * Second)%N
         (sendProbe E url requestBody (requestHeaders E)) (""%string, None)
         (encoded c w))
    = Returns (v, err) w'
    /\ run_facts E dec value default (postRequest E url requestBody) w w' new v err.
Proof.
  destruct (network_exchange E c url requestBody w)
    as (err & body & e' & w2 & new & Hrun & Htrace & Hretry & Hmarshal & Hunmarshal
        & Hall & Hshape & Hcount & Hatt & Hverdict).
  rewrite Hrun. unfold finish.
  set (rq := postRequest E url requestBody) in *.
  destruct err as [e|].
  - (* the retrier timed out *)
    destruct Hverdict as [He Hfail]. subst e.
    exists default, (Some (Wrap timed_out "Failed to send HTTP request to OPA")),
      (logged (verbose c) LevelError "Failed to send HTTP request to OPA" w2),
      ((if verbose c then [EvLog LevelError "Failed to send HTTP request to OPA"] else [])
       ++ new).
    split; [reflexivity|]. unfold run_facts, exchange_events.
    rewrite logged_trace, logged_attempts, Htrace, app_assoc.
    split; [reflexivity|].
    destruct (verbose c); simpl app; simpl filter.
    all: split; [exact Hretry|]; split; [exact Hmarshal|].
    all: split; [repeat constructor; exact Hall|].
    all: split; [exact Hshape|]; split; [exact Hcount|]; split; [exact Hatt|].
    all: split; [reflexivity|]; left; auto.
  - (* the retrier reported success *)
    destruct Hverdict as (n & Hn & Hreply).
    assert (Hdec_trace : trace (decoding c w2)
              = (EvUnmarshal
                 :: (if verbose c then [EvLog LevelInfo "Received response from OPA"] else [])
                 ++ new) ++ EvMarshal :: trace w).
    { unfold decoding. simpl trace. rewrite logged_trace, Htrace.
      simpl. rewrite <- app_assoc. reflexivity. }
    assert (Hdec_att : attempts (decoding c w2) = attempts w2).
    { unfold decoding. change (attempts (emit EvUnmarshal ?x)) with (attempts x).
      apply logged_attempts. }
    destruct (dec body) as [cause|d] eqn:Hdec.
    + exists default, (Some (Wrap cause "Failed to unmarshal response body")),
        (decoding c w2),
        (EvUnmarshal
         :: (if verbose c then [EvLog LevelInfo "Received response from OPA"] else [])
         ++ new).
      split; [reflexivity|]. unfold run_facts, exchange_events.
      rewrite Hdec_trace, Hdec_att.
      split; [reflexivity|].
      destruct (verbose c); simpl app; simpl filter.
      all: split; [exact Hretry|]; split; [exact Hmarshal|].
      all: split; [repeat constructor; exact Hall|].
      all: split; [exact Hshape|]; split; [exact Hcount|]; split; [exact Hatt|].
      all: split; [reflexivity|]; right; exists n, body, cause; eexists.
      all: repeat split; try eassumption; try reflexivity.
      all: simpl; exact Hunmarshal.
    + exists (value d), None,
        (logged (verbose c) LevelInfo done (decoding c w2)),
        ((if verbose c then [EvLog LevelInfo done] else [])
         ++ EvUnmarshal
         :: (if verbose c then [EvLog LevelInfo "Received response from OPA"] else [])
         ++ new).
      split; [reflexivity|]. unfold run_facts, exchange_events.
      rewrite logged_trace, logged_attempts, Hdec_trace, Hdec_att.
      split; [destruct (verbose c); reflexivity|].
      destruct (verbose c); simpl app; simpl filter.
      all: split; [exact Hretry|]; split; [exact Hmarshal|].
      all: split; [repeat constructor; exact Hall|].
      all: split; [exact Hshape|]; split; [exact Hcount|]; split; [exact Hatt|].
      all: exists n, body, d; repeat split; try assumption.
      all: rewrite Hunmarshal; reflexivity.
Qed.

Lemma QueryPermissions_network_run (E : Env) (c : HTTPClient) (resource : string)
    (action : Action) (o : PermissionOptions) (w : World) (requestBody : string) :
  bypasses c o = false ->
  json_Marshal_query E (queryRequest resource action o) = inr requestBody ->
  exists v err w' new,
    QueryPermissions E c resource action (Some o) w = Returns (v, err) w'
    /\ run_facts E (json_Unmarshal_query E) Query_Result false
         (queryPost E c requestBody) w w' new v err.
Proof.
  intros Hb Hm. rewrite (QueryPermissions_network _ _ _ _ _ _ _ Hb Hm).
  exact (finish_run E c (json_Unmarshal_query E) Query_Result false
           "Successfully unmarshalled permission response" _ requestBody w).
Qed.

Lemma QueryPermissionsMultiResources_network_run (E : Env) (c : HTTPClient)
    (resources : list string) (action : Action) (o : PermissionOptions) (w : World)
    (requestBody : string) :
  bypasses c o = false ->
  json_Marshal_filter E (filterRequest resources action o) = inr requestBody ->
  exists v err w' new,
    QueryPermissionsMultiResources E c resources action (Some o) w = Returns (v, err) w'
    /\ run_facts E (json_Unmarshal_filter E) (filterVerdicts resources) None
         (filterPost E c requestBody) w w' new v err.
Proof.
  intros Hb Hm. rewrite (QueryPermissionsMultiResources_network _ _ _ _ _ _ _ Hb Hm).
  exact (finish_run E c (json_Unmarshal_filter E) (filterVerdicts resources) None
           "Successfully unmarshalled permission filter response" _ requestBody w).
Qed.

Lemma bypasses_true (c : HTTPClient) (o : PermissionOptions) :
  overrideHeaderValue c <> ""%string ->
  OverrideHeaderValue o = overrideHeaderValue c ->
  bypasses c o = true.
Proof.
  intros Hne Heq. unfold bypasses. rewrite Heq, String.eqb_refl.
  destruct (String.eqb_spec (overrideHeaderValue c) ""); [contradiction|reflexivity].
Qed.

Lemma bypasses_empty (c : HTTPClient) (o : PermissionOptions) :
  overrideHeaderValue c = ""%string -> bypasses c o = false.
Proof. intros H. unfold bypasses. rewrite H. reflexivity. Qed.

Lemma QueryPermissions_returns (E : Env) (c : HTTPClient) (resource : string)
    (action : Action) (o : PermissionOptions) (w : World) :
  exists out w', QueryPermissions E c resource action (Some o) w = Returns out w'.
Proof.
  destruct (bypasses c o) eqn:Hb.
  - rewrite (QueryPermissions_bypass _ _ _ _ _ _ Hb). eauto.
  - destruct (json_Marshal_query E (queryRequest resource action o)) as [e|rb] eqn:Hm.
    + rewrite (QueryPermissions_encode_error _ _ _ _ _ _ _ Hb Hm). eauto.
    + destruct (QueryPermissions_network_run _ c _ _ _ w _ Hb Hm)
        as (v & err & w' & new & Hrun & _). rewrite Hrun. eauto.
Qed.

Lemma QueryPermissionsMultiResources_returns (E : Env) (c : HTTPClient)
    (resources : list string) (action : Action) (o : PermissionOptions) (w : World) :
  exists out w',
    QueryPermissionsMultiResources E c resources action (Some o) w = Returns out w'.
Proof.
  destruct (bypasses c o) eqn:Hb.
  - rewrite (QueryPermissionsMultiResources_bypass _ _ _ _ _ _ Hb). eauto.
  - destruct (json_Marshal_filter E (filterRequest resources action o)) as [e|rb] eqn:Hm.
    + rewrite (QueryPermissionsMultiResources_encode_error _ _ _ _ _ _ _ Hb Hm). eauto.
    + destruct (QueryPermissionsMultiResources_network_run _ c _ _ _ w _ Hb Hm)
        as (v & err & w' & new & Hrun & _). rewrite Hrun. eauto.
Qed.

Lemma encoded_clock (c : HTTPClient) (w : World) : clock (encoded c w) = clock w.
Proof. unfold encoded. rewrite logged_clock. reflexivity. Qed.

Lemma encoded_attempts (c : HTTPClient) (w : World) : attempts (encoded c w) = attempts w.
Proof. unfold encoded. rewrite logged_attempts. reflexivity. Qed.

(** When the transport answers in time after [k] failures, the outcome is
    the decoder's verdict on that answer. *)
Lemma finish_succeeds {D R} (E : Env) (c : HTTPClient) (dec : string -> error + D)
    (value : D -> R) (default : R) (done url requestBody : string) (w : World)
    (k : nat) (body : string) :
  succeeds_after E (postRequest E url requestBody) (1 * Second)%N
    (clock w + 6 * Second)%N k (attempts w) (clock w) body ->
  exists w2,
    attempts w2 = attempts w + S k /\
    finish c dec value default done
      (retryUntilSuccessful (6 * Second)%N (1 * Second)%N
         (sendProbe E url requestBody (requestHeaders E)) (""%string, None)
         (encoded c w))
    = match dec body with
      | inl err =>
          Returns (default, Some (Wrap err "Failed to unmarshal response body"))
            (decoding c w2)
      | inr d =>
          Returns (value d, None) (logged (verbose c) LevelInfo done (decoding c w2))
      end.
Proof.
  intros Hs. rewrite <- (encoded_clock c w), <- (encoded_attempts c w) in Hs.
  destruct (retryUntilSuccessful_succeeds E url requestBody (""%string, None)
              (encoded c w) k body Hs) as (w2 & Hrun & Hatt).
  exists w2. rewrite Hrun. rewrite encoded_attempts in Hatt.
  split; [exact Hatt | reflexivity].
Qed.

Lemma QueryPermissions_succeeds (E : Env) (c : HTTPClient) (resource : string)
    (action : Action) (o : PermissionOptions) (w : World) (requestBody : string)
    (k : nat) (body : string) :
  bypasses c o = false ->
  json_Marshal_query E (queryRequest resource action o) = inr requestBody ->
  succeeds_after E (queryPost E c requestBody) (1 * Second)%N
    (clock w + 6 * Second)%N k (attempts w) (clock w) body ->
  exists w2,
    attempts w2 = attempts w + S k /\
    QueryPermissions E c resource action (Some o) w =
    match json_Unmarshal_query E body with
    | inl err =>
        Returns (false, Some (Wrap err "Failed to unmarshal response body"))
          (decoding c w2)
    | inr resp =>
        Returns (Query_Result resp, None)
          (logged (verbose c) LevelInfo
             "Successfully unmarshalled permission response" (decoding c w2))
    end.
Proof.
  intros Hb Hm Hs. rewrite (QueryPermissions_network _ _ _ _ _ _ _ Hb Hm).
  exact (finish_succeeds E c (json_Unmarshal_query E) Query_Result false
           "Successfully unmarshalled permission response" _ requestBody w k body Hs).
Qed.

Lemma QueryPermissionsMultiResources_succeeds (E : Env) (c : HTTPClient)
    (resources : list string) (action : Action) (o : PermissionOptions) (w : World)
    (requestBody : string) (k : nat) (body : string) :
  bypasses c o = false ->
  json_Marshal_filter E (filterRequest resources action o) = inr requestBody ->
  succeeds_after E (filterPost E c requestBody) (1 * Second)%N
    (clock w + 6 * Second)%N k (attempts w) (clock w) body ->
  exists w2,
    attempts w2 = attempts w + S k /\
    QueryPermissionsMultiResources E c resources action (Some o) w =
    match json_Unmarshal_filter E body with
    | inl err =>
        Returns (None, Some (Wrap err "Failed to unmarshal response body"))
          (decoding c w2)
    | inr resp =>
        Returns (filterVerdicts resources resp, None)
          (logged (verbose c) LevelInfo
             "Successfully unmarshalled permission filter response" (decoding c w2))
    end.
Proof.
  intros Hb Hm Hs. rewrite (QueryPermissionsMultiResources_network _ _ _ _ _ _ _ Hb Hm).
  exact (finish_succeeds E c (json_Unmarshal_filter E) (filterVerdicts resources) None
           "Successfully unmarshalled permission filter response" _ requestBody w k
           body Hs).
Qed.

(** A transport that never answers with the expected status exhausts the
    retrier. *)
Lemma run_facts_never_succeeds {D R} (E : Env) (dec : string -> error + D)
    (value : D -> R) (default : R) (rq : HTTPRequest) (w w' : World)
    (new : list Event) (v : R) (err : option error) :
  run_facts E dec value default rq w w' new v err ->
  (forall i, reply_body http_StatusOK (server E (attempts w + i) rq) = None) ->
  v = default /\ err = Some (Wrap timed_out "Failed to send HTTP request to OPA").
Proof.
  intros (_ & _ & _ & _ & _ & Hcount & Hatt & Hverdict) Hnever.
  assert (Hcontra : forall n body,
            attempts w' = S n ->
            reply_body http_StatusOK (server E n rq) = Some body -> False).
  { intros n body Hn Hreply.
    specialize (Hnever (List.length (filter is_send new) - 1)).
    replace (attempts w + (List.length (filter is_send new) - 1)) with n in Hnever by lia.
    congruence. }
  destruct err as [e|].
  - destruct Hverdict as [Hv [(He & _)|(n & body & cause & rest & Hn & Hreply & _)]].
    + subst. auto.
    + exfalso. eauto.
  - destruct Hverdict as (n & body & d & Hn & Hreply & _). exfalso. eauto.
Qed.

Lemma map_same_outcome {A B} (f : A -> B) (l : list A) (i j : nat) :
  nth_error l i = nth_error l j ->
  nth_error (map f l) i = nth_error (map f l) j.
Proof. intros H. rewrite !nth_error_map, H. reflexivity. Qed.

(** Failing first and answering in time gives the same result as being
    answered at once. *)
Lemma QueryPermissions_same_as_immediate (E : Env) (c : HTTPClient)
    (resource : string) (action : Action) (o : PermissionOptions) (w : World)
    (requestBody : string) (k : nat) (body : string) :
  bypasses c o = false ->
  json_Marshal_query E (queryRequest resource action o) = inr requestBody ->
  succeeds_after E (queryPost E c requestBody) (1 * Second)%N
    (clock w + 6 * Second)%N k (attempts w) (clock w) body ->
  returned (QueryPermissions (answering E body) c resource action (Some o) w)
  = returned (QueryPermissions E c resource action (Some o) w).
Proof.
  intros Hb Hm Hs.
  destruct (QueryPermissions_succeeds _ _ _ _ _ _ _ _ _ Hb Hm Hs) as (w2 & _ & Hrun).
  destruct (QueryPermissions_succeeds (answering E body) c resource action o w
              requestBody 0 body Hb Hm) as (w3 & _ & Hrun').
  { simpl. split; [lia | reflexivity]. }
  rewrite Hrun, Hrun'.
  change (json_Unmarshal_query (answering E body)) with (json_Unmarshal_query E).
  destruct (json_Unmarshal_query E body); reflexivity.
Qed.

Lemma QueryPermissionsMultiResources_same_as_immediate (E : Env) (c : HTTPClient)
    (resources : list string) (action : Action) (o : PermissionOptions) (w : World)
    (requestBody : string) (k : nat) (body : string) :
  bypasses c o = false ->
  json_Marshal_filter E (filterRequest resources action o) = inr requestBody ->
  succeeds_after E (filterPost E c requestBody) (1 * Second)%N
    (clock w + 6 * Second)%N k (attempts w) (clock w) body ->
  returned (QueryPermissionsMultiResources (answering E body) c resources action
              (Some o) w)
  = returned (QueryPermissionsMultiResources E c resources action (Some o) w).
Proof.
  intros Hb Hm Hs.
  destruct (QueryPermissionsMultiResources_succeeds _ _ _ _ _ _ _ _ _ Hb Hm Hs)
    as (w2 & _ & Hrun).
  destruct (QueryPermissionsMultiResources_succeeds (answering E body) c resources
              action o w requestBody 0 body Hb Hm) as (w3 & _ & Hrun').
  { simpl. split; [lia | reflexivity]. }
  rewrite Hrun, Hrun'.
  change (json_Unmarshal_filter (answering E body)) with (json_Unmarshal_filter E).
  destruct (json_Unmarshal_filter E body); reflexivity.
Qed.

(** Checking a schedule of answers on concrete inputs. *)
Ltac check_schedule :=
  simpl succeeds_after;
  repeat split; try reflexivity; try (vm_compute; discriminate).

(** ** Membership is all the batch result sees *)

Lemma same_members_verdicts (resources allowed allowed' : list string) :
  same_members resources allowed allowed' ->
  map (slices_Contains allowed) resources = map (slices_Contains allowed') resources.
Proof.
  intros Hsame. apply map_ext_in. intros resource Hin.
  specialize (Hsame resource Hin).
  destruct (slices_Contains allowed resource) eqn:H1;
    destruct (slices_Contains allowed' resource) eqn:H2; try reflexivity.
  - apply slices_Contains_In, Hsame, slices_Contains_In in H1. congruence.
  - apply slices_Contains_In, Hsame, slices_Contains_In in H2. congruence.
Qed.

Lemma same_members_permutation (resources allowed allowed' : list string) :
  Permutation allowed allowed' -> same_members resources allowed allowed'.
Proof.
  intros Hperm resource _. split; intros Hin.
  - exact (Permutation_in _ Hperm Hin).
  - exact (Permutation_in _ (Permutation_sym Hperm) Hin).
Qed.

Lemma same_members_duplicated (resources allowed : list string) :
  same_members resources allowed (allowed ++ allowed).
Proof.
  intros resource _. rewrite in_app_iff. tauto.
Qed.

Lemma same_members_requested_only (resources allowed : list string) :
  same_members resources allowed (filter (slices_Contains resources) allowed).
Proof.
  intros resource Hin. rewrite filter_In, slices_Contains_In. tauto.
Qed.

Lemma sendProbe_with_filter_decoder (E : Env)
    (dec : string -> error + PermissionFilterResponse) (url body : string) :
  sendProbe (with_filter_decoder E dec) url body (requestHeaders (with_filter_decoder E dec))
  = sendProbe E url body (requestHeaders E).
Proof. reflexivity. Qed.

(** Evaluating a run on concrete inputs. *)
Ltac evaluate_run :=
  match goal with
  | |- ?run = _ => let r := eval vm_compute in run in change run with r
  end;
  reflexivity.

(** * The claims *)

(** C2. If the client's configured override-header value is non-empty and
    equals [options.OverrideHeaderValue], [QueryPermissions] returns
    [(true, nil)] and [QueryPermissionsMultiResources] returns an all-true
    slice of length [len(resources)] with a nil error, for every resource
    set and action. The world is left exactly as it was found: no
    serialisation, no outbound request, no sleep, whatever the codec and the
    network would have done. *)
Theorem override_bypass_allows_without_io (E : Env) (c : HTTPClient)
    (resource : string) (resources : list string) (action : Action)
    (o : PermissionOptions) (w : World) :
  overrideHeaderValue c <> ""%string ->
  OverrideHeaderValue o = overrideHeaderValue c ->
  QueryPermissions E c resource action (Some o) w = Returns (true, None) w
  /\ QueryPermissionsMultiResources E c resources action (Some o) w
     = Returns (Some (repeat true (List.length resources)), None) w.
Proof.
  intros Hne Heq. pose proof (bypasses_true c o Hne Heq) as Hb. split.
  - apply QueryPermissions_bypass. exact Hb.
  - apply QueryPermissionsMultiResources_bypass. exact Hb.
Qed.

Lemma override_bypass_allows_without_io_witness :
  overrideHeaderValue sample_client <> ""%string
  /\ OverrideHeaderValue secret_options = overrideHeaderValue sample_client
  /\ QueryPermissions failing_env sample_client "x" ActionRead (Some secret_options) w0
     = Returns (true, None) w0
  /\ QueryPermissionsMultiResources failing_env sample_client ["a"; "b"; "c"]%string
       ActionRead (Some secret_options) w0
     = Returns (Some [true; true; true], None) w0.
Proof.
  split; [discriminate|]. split; [reflexivity|].
  apply (override_bypass_allows_without_io failing_env sample_client "x"
           ["a"; "b"; "c"]%string ActionRead secret_options w0);
    [discriminate | reflexivity].
Defined.

(** C3. Whenever either query operation returns a non-nil error it also
    returns its default result: [false] for [QueryPermissions], the nil
    slice (never a partially filled one) for
    [QueryPermissionsMultiResources]; and the error is one of the three
    failures: request encoding, retry exhaustion of the transport call,
    response decoding. *)
Theorem error_comes_with_default_result (E : Env) (c : HTTPClient)
    (resource : string) (resources : list string) (action : Action)
    (opts : option PermissionOptions) (w : World) :
  (forall v e w',
     QueryPermissions E c resource action opts w = Returns (v, Some e) w' ->
     v = false /\ failure_kind e)
  /\ (forall r e w',
        QueryPermissionsMultiResources E c resources action opts w
        = Returns (r, Some e) w' ->
        r = None /\ failure_kind e).
Proof.
  split; intros v e w' Hrun.
  - exact (QueryPermissions_error_default _ _ _ _ _ _ _ _ _ Hrun).
  - exact (QueryPermissionsMultiResources_error_default _ _ _ _ _ _ _ _ _ Hrun).
Qed.

Lemma error_comes_with_default_result_witness :
  (exists v e w',
     QueryPermissions (sample_env unreachable) open_client "x" ActionRead
       (Some member_options) w0 = Returns (v, Some e) w'
     /\ v = false /\ failure_kind e)
  /\ (exists r e w',
        QueryPermissionsMultiResources (sample_env (answers body_result_false))
          open_client ["a"; "b"]%string ActionRead (Some member_options) w0
        = Returns (r, Some e) w'
        /\ r = None /\ failure_kind e).
Proof.
  split.
  - eexists _, _, _. split; [evaluate_run|].
    eapply (proj1 (error_comes_with_default_result (sample_env unreachable) open_client
                     "x" [] ActionRead (Some member_options) w0)).
    evaluate_run.
  - eexists _, _, _. split; [evaluate_run|].
    eapply (proj2 (error_comes_with_default_result (sample_env (answers body_result_false))
                     open_client "x" ["a"; "b"]%string ActionRead
                     (Some member_options) w0)).
    evaluate_run.
Defined.

(** C7. If the client's configured override-header value is the empty
    string, the bypass test is false for every options value, also one whose
    [OverrideHeaderValue] is empty too, and is decided without looking at
    the options. Both operations then take the normal path: the first thing
    they do is serialise the request; once that succeeded at least one
    request is sent; and an error, if any, is one of the three failures of
    that path. *)
Theorem empty_override_never_bypasses (E : Env) (c : HTTPClient)
    (resource : string) (resources : list string) (action : Action) :
  overrideHeaderValue c = ""%string ->
  (forall opts w, overrideMatches c opts w = Returns false w)
  /\ (forall o w, exists out w' new,
        QueryPermissions E c resource action (Some o) w = Returns out w'
        /\ trace w' = new ++ EvMarshal :: trace w
        /\ (forall e, snd out = Some e -> failure_kind e)
        /\ (forall b, json_Marshal_query E (queryRequest resource action o) = inr b ->
            1 <= List.length (filter is_send new)))
  /\ (forall o w, exists out w' new,
        QueryPermissionsMultiResources E c resources action (Some o) w = Returns out w'
        /\ trace w' = new ++ EvMarshal :: trace w
        /\ (forall e, snd out = Some e -> failure_kind e)
        /\ (forall b, json_Marshal_filter E (filterRequest resources action o) = inr b ->
            1 <= List.length (filter is_send new))).
Proof.
  intros Hempty. split; [|split].
  - intros opts w. unfold overrideMatches. rewrite Hempty. reflexivity.
  - intros o w. pose proof (bypasses_empty c o Hempty) as Hb.
    destruct (json_Marshal_query E (queryRequest resource action o)) as [e|rb] eqn:Hm.
    + exists (false, Some (Wrap e "Failed to generate request body")), (emit EvMarshal w), [].
      split; [exact (QueryPermissions_encode_error _ _ _ _ _ _ _ Hb Hm)|].
      split; [reflexivity|]. split; [|discriminate].
      intros e' He'. inversion He'. exists e. auto.
    + destruct (QueryPermissions_network_run _ c _ _ _ w _ Hb Hm)
        as (v & err & w' & new & Hrun & Htrace & _ & _ & _ & _ & Hcount & _).
      exists (v, err), w', new. split; [exact Hrun|]. split; [exact Htrace|].
      split; [|intros; lia].
      intros e He. simpl in He. subst err.
      exact (proj2 (QueryPermissions_error_default _ _ _ _ _ _ _ _ _ Hrun)).
  - intros o w. pose proof (bypasses_empty c o Hempty) as Hb.
    destruct (json_Marshal_filter E (filterRequest resources action o)) as [e|rb] eqn:Hm.
    + exists (None, Some (Wrap e "Failed to generate request body")), (emit EvMarshal w), [].
      split; [exact (QueryPermissionsMultiResources_encode_error _ _ _ _ _ _ _ Hb Hm)|].
      split; [reflexivity|]. split; [|discriminate].
      intros e' He'. inversion He'. exists e. auto.
    + destruct (QueryPermissionsMultiResources_network_run _ c _ _ _ w _ Hb Hm)
        as (v & err & w' & new & Hrun & Htrace & _ & _ & _ & _ & Hcount & _).
      exists (v, err), w', new. split; [exact Hrun|]. split; [exact Htrace|].
      split; [|intros; lia].
      intros e He. simpl in He. subst err.
      exact (proj2 (QueryPermissionsMultiResources_error_default _ _ _ _ _ _ _ _ _ Hrun)).
Qed.

Lemma empty_override_never_bypasses_witness :
  overrideHeaderValue open_client = ""%string
  /\ overrideMatches open_client (Some member_options) w0 = Returns false w0
  /\ OverrideHeaderValue member_options = overrideHeaderValue open_client.
Proof.
  split; [reflexivity|]. split; [|reflexivity].
  apply (proj1 (empty_override_never_bypasses (sample_env unreachable) open_client
                  "x" ["a"]%string ActionRead eq_refl)).
Defined.

(** C9, as the code has it. On a non-nil [PermissionOptions] pointer both
    operations of the HTTP client return normally with a (result, error)
    pair: no path panics, and the retry loop always ends. The no-op client
    returns normally on every input, a nil pointer included. *)
Theorem queries_return_on_non_nil_options (E : Env) (c : HTTPClient) (n : NopClient)
    (resource : string) (resources : list string) (action : Action)
    (o : PermissionOptions) (opts : option PermissionOptions) (w : World) :
  (exists out w', QueryPermissions E c resource action (Some o) w = Returns out w')
  /\ (exists out w',
        QueryPermissionsMultiResources E c resources action (Some o) w = Returns out w')
  /\ (exists w', Nop_QueryPermissions n resource action opts w = Returns (true, None) w')
  /\ (exists w',
        Nop_QueryPermissionsMultiResources n resources action opts w
        = Returns (Some (repeat true (List.length resources)), None) w').
Proof.
  split; [apply QueryPermissions_returns|].
  split; [apply QueryPermissionsMultiResources_returns|].
  split.
  - unfold Nop_QueryPermissions, bind. rewrite when_log_run. eauto.
  - unfold Nop_QueryPermissionsMultiResources, bind.
    rewrite when_log_run, allowAll_make. eauto.
Qed.

(** C9 as stated fails: on a nil [PermissionOptions] pointer both operations
    of the HTTP client panic, whether or not an override value is
    configured. *)
Lemma nil_options_panic :
  QueryPermissions (sample_env unreachable) open_client "x" ActionRead None w0
  = Panics "invalid memory address or nil pointer dereference" w0
  /\ QueryPermissionsMultiResources (sample_env unreachable) sample_client
       ["a"; "b"]%string ActionRead None w0
     = Panics "invalid memory address or nil pointer dereference" w0.
Proof. split; reflexivity. Qed.

(** C1. When [QueryPermissionsMultiResources] returns with a nil error, the
    returned slice is non-nil and has exactly [len(resources)] elements, and
    equal resource strings at two positions receive the same outcome. On the
    bypass path every element is true and nothing was sent. Otherwise the
    last attempt was answered with status 200 and a body that decoded to an
    allowed-subset, and element [i] is true if and only if [resources[i]]
    occurs in that subset; for resources ["a","b","c"] and decoded subset
    ["a","c"] the result is [true, false, true]. *)
Theorem batch_result_is_membership (E : Env) (c : HTTPClient)
    (resources : list string) (action : Action) (opts : option PermissionOptions)
    (w w' : World) (r : option (list bool)) :
  QueryPermissionsMultiResources E c resources action opts w = Returns (r, None) w' ->
  exists results o,
    r = Some results /\ opts = Some o /\
    List.length results = List.length resources /\
    (forall i j, nth_error resources i = nth_error resources j ->
                 nth_error results i = nth_error results j) /\
    if bypasses c o then
      results = repeat true (List.length resources) /\ w' = w
    else
      exists requestBody n body resp,
        json_Marshal_filter E (filterRequest resources action o) = inr requestBody /\
        attempts w' = S n /\
        reply_body http_StatusOK (server E n (filterPost E c requestBody)) = Some body /\
        json_Unmarshal_filter E body = inr resp /\
        (forall i resource, nth_error resources i = Some resource ->
           exists b, nth_error results i = Some b /\
                     (b = true <-> In resource (Filter_Result resp))) /\
        (resources = ["a"; "b"; "c"]%string ->
         Filter_Result resp = ["a"; "c"]%string ->
         results = [true; false; true]).
Proof.
  destruct opts as [o|];
    [|rewrite QueryPermissionsMultiResources_nil_options; discriminate].
  destruct (bypasses c o) eqn:Hb.
  - rewrite (QueryPermissionsMultiResources_bypass _ _ _ _ _ _ Hb).
    intros H. inversion H; subst.
    exists (repeat true (List.length resources)), o. rewrite Hb.
    split; [reflexivity|]. split; [reflexivity|].
    split; [apply repeat_length|]. split; [|auto].
    intros i j Hij. rewrite <- (map_const true resources).
    apply map_same_outcome. exact Hij.
  - destruct (json_Marshal_filter E (filterRequest resources action o)) as [e|rb] eqn:Hm.
    + rewrite (QueryPermissionsMultiResources_encode_error _ _ _ _ _ _ _ Hb Hm).
      discriminate.
    + destruct (QueryPermissionsMultiResources_network_run _ c _ _ _ w _ Hb Hm)
        as (v & err & w2 & new & Hrun & Hfacts).
      rewrite Hrun. intros H. inversion H; subst.
      destruct Hfacts as (_ & _ & _ & _ & _ & _ & _ & n & body & resp & Hn & Hreply
                          & Hdec & Hv & _).
      subst r. unfold filterVerdicts.
      exists (map (slices_Contains (Filter_Result resp)) resources), o. rewrite Hb.
      split; [reflexivity|]. split; [reflexivity|].
      split; [apply length_map|].
      split; [intros i j; apply map_same_outcome|].
      exists rb, n, body, resp.
      split; [exact Hm|]. split; [exact Hn|]. split; [exact Hreply|].
      split; [exact Hdec|]. split.
      * intros i resource Hi. rewrite nth_error_map, Hi. simpl.
        eexists. split; [reflexivity|]. apply slices_Contains_In.
      * intros Hres Hallowed. rewrite Hres, Hallowed. reflexivity.
Qed.

Lemma batch_result_is_membership_witness :
  exists w',
    QueryPermissionsMultiResources (sample_env (answers_third body_result_a_c))
      open_client ["a"; "b"; "c"]%string ActionRead (Some member_options) w0
    = Returns (Some [true; false; true], None) w'
    /\ exists results o,
         Some [true; false; true] = Some results /\
         Some member_options = Some o /\
         List.length results = 3.
Proof.
  eexists. split; [evaluate_run|].
  destruct (batch_result_is_membership (sample_env (answers_third body_result_a_c))
              open_client ["a"; "b"; "c"]%string ActionRead (Some member_options) w0
              _ (Some [true; false; true]) ltac:(evaluate_run))
    as (results & o & Hr & Ho & Hlen & _).
  exists results, o. auto.
Defined.

(** C6. When the transport exchange succeeds (at once, or after [k] failed
    attempts within the retry window) and the response body decodes as
    [{result: bool}], [QueryPermissions] returns exactly the decoded boolean
    with a nil error; a response [{"result": false}] yields [(false, nil)],
    not an error. *)
Theorem single_query_returns_decoded_boolean (E : Env) (c : HTTPClient)
    (resource : string) (action : Action) (o : PermissionOptions) (w : World)
    (requestBody : string) (k : nat) (body : string) (resp : PermissionQueryResponse) :
  bypasses c o = false ->
  json_Marshal_query E (queryRequest resource action o) = inr requestBody ->
  succeeds_after E (queryPost E c requestBody) (1 * Second)%N
    (clock w + 6 * Second)%N k (attempts w) (clock w) body ->
  json_Unmarshal_query E body = inr resp ->
  exists w',
    QueryPermissions E c resource action (Some o) w
    = Returns (Query_Result resp, None) w'.
Proof.
  intros Hb Hm Hs Hdec.
  destruct (QueryPermissions_succeeds _ _ _ _ _ _ _ _ _ Hb Hm Hs) as (w2 & _ & Hrun).
  rewrite Hrun, Hdec. eauto.
Qed.

Lemma single_query_returns_decoded_boolean_witness :
  json_Unmarshal_query (sample_env (answers body_result_false)) body_result_false
  = inr {| Query_Result := false |}
  /\ exists w',
       QueryPermissions (sample_env (answers body_result_false)) open_client "x"
         ActionRead (Some member_options) w0
       = Returns (false, None) w'.
Proof.
  split; [reflexivity|].
  apply (single_query_returns_decoded_boolean
           (sample_env (answers body_result_false)) open_client "x" ActionRead
           member_options w0
           (render plain_quote
              (encode_PermissionQueryRequest (queryRequest "x" ActionRead member_options)))
           0 body_result_false {| Query_Result := false |}).
  - reflexivity.
  - reflexivity.
  - split; [discriminate | reflexivity].
  - reflexivity.
Defined.

(** C4. Serialisation failures are never retried. If encoding the request
    body fails, both operations return the wrapped error with the world
    changed by the encoding attempt alone: the retrier is not entered, no
    request is sent, no time passes. If decoding the response body fails
    after an exchange that succeeded on attempt [k + 1], the wrapped error is
    returned and the failed decoding is the last thing that happened: the
    retrier was entered once, before it, and made exactly those [k + 1]
    attempts. *)
Theorem serialization_failures_are_not_retried (E : Env) (c : HTTPClient)
    (resource : string) (resources : list string) (action : Action)
    (o : PermissionOptions) (w : World) :
  bypasses c o = false ->
  (forall e,
     json_Marshal_query E (queryRequest resource action o) = inl e ->
     QueryPermissions E c resource action (Some o) w
     = Returns (false, Some (Wrap e "Failed to generate request body"))
         {| clock := clock w; trace := EvMarshal :: trace w |})
  /\ (forall e,
        json_Marshal_filter E (filterRequest resources action o) = inl e ->
        QueryPermissionsMultiResources E c resources action (Some o) w
        = Returns (None, Some (Wrap e "Failed to generate request body"))
            {| clock := clock w; trace := EvMarshal :: trace w |})
  /\ (forall requestBody k body e,
        json_Marshal_query E (queryRequest resource action o) = inr requestBody ->
        succeeds_after E (queryPost E c requestBody) (1 * Second)%N
          (clock w + 6 * Second)%N k (attempts w) (clock w) body ->
        json_Unmarshal_query E body = inl e ->
        exists w' rest,
          QueryPermissions E c resource action (Some o) w
          = Returns (false, Some (Wrap e "Failed to unmarshal response body")) w'
          /\ trace w' = EvUnmarshal :: rest ++ EvMarshal :: trace w
          /\ filter is_retry rest = [EvRetry (6 * Second)%N (1 * Second)%N]
          /\ filter is_unmarshal rest = []
          /\ List.length (filter is_send rest) = S k)
  /\ (forall requestBody k body e,
        json_Marshal_filter E (filterRequest resources action o) = inr requestBody ->
        succeeds_after E (filterPost E c requestBody) (1 * Second)%N
          (clock w + 6 * Second)%N k (attempts w) (clock w) body ->
        json_Unmarshal_filter E body = inl e ->
        exists w' rest,
          QueryPermissionsMultiResources E c resources action (Some o) w
          = Returns (None, Some (Wrap e "Failed to unmarshal response body")) w'
          /\ trace w' = EvUnmarshal :: rest ++ EvMarshal :: trace w
          /\ filter is_retry rest = [EvRetry (6 * Second)%N (1 * Second)%N]
          /\ filter is_unmarshal rest = []
          /\ List.length (filter is_send rest) = S k).
Proof.
  intros Hb. split; [|split; [|split]].
  - intros e Hm. exact (QueryPermissions_encode_error _ _ _ _ _ _ _ Hb Hm).
  - intros e Hm. exact (QueryPermissionsMultiResources_encode_error _ _ _ _ _ _ _ Hb Hm).
  - intros rb k body e Hm Hs Hdec.
    destruct (QueryPermissions_succeeds _ _ _ _ _ _ _ _ _ Hb Hm Hs) as (w2 & Hatt & Hrun).
    rewrite Hdec in Hrun.
    destruct (QueryPermissions_network_run _ c _ _ _ w _ Hb Hm)
      as (v & err & w' & new & Hrun' & Htrace & Hretry & _ & _ & _ & _ & Hatt' & Hverdict).
    rewrite Hrun in Hrun'. inversion Hrun' as [[Hv Herr Hw]].
    rewrite <- Herr in Hverdict.
    destruct Hverdict as [_ [(Habs & _)|(n & body' & cause & rest & _ & _ & _ & _ & Hnew & Hun)]];
      [discriminate Habs|].
    exists (decoding c w2), rest. split; [exact Hrun|]. subst new.
    rewrite Hw. split; [exact Htrace|]. split; [exact Hretry|]. split; [exact Hun|].
    rewrite <- Hw in Hatt'. unfold decoding in Hatt'.
    change (attempts (emit EvUnmarshal ?x)) with (attempts x) in Hatt'.
    rewrite logged_attempts in Hatt'. simpl in Hatt'. lia.
  - intros rb k body e Hm Hs Hdec.
    destruct (QueryPermissionsMultiResources_succeeds _ _ _ _ _ _ _ _ _ Hb Hm Hs)
      as (w2 & Hatt & Hrun).
    rewrite Hdec in Hrun.
    destruct (QueryPermissionsMultiResources_network_run _ c _ _ _ w _ Hb Hm)
      as (v & err & w' & new & Hrun' & Htrace & Hretry & _ & _ & _ & _ & Hatt' & Hverdict).
    rewrite Hrun in Hrun'. inversion Hrun' as [[Hv Herr Hw]].
    rewrite <- Herr in Hverdict.
    destruct Hverdict as [_ [(Habs & _)|(n & body' & cause & rest & _ & _ & _ & _ & Hnew & Hun)]];
      [discriminate Habs|].
    exists (decoding c w2), rest. split; [exact Hrun|]. subst new.
    rewrite Hw. split; [exact Htrace|]. split; [exact Hretry|]. split; [exact Hun|].
    rewrite <- Hw in Hatt'. unfold decoding in Hatt'.
    change (attempts (emit EvUnmarshal ?x)) with (attempts x) in Hatt'.
    rewrite logged_attempts in Hatt'. simpl in Hatt'. lia.
Qed.

Lemma serialization_failures_are_not_retried_witness :
  bypasses open_client member_options = false
  /\ QueryPermissions failing_env open_client "x" ActionRead (Some member_options) w0
     = Returns (false, Some (Wrap (New "json: unsupported value")
                               "Failed to generate request body"))
         {| clock := 0%N; trace := [EvMarshal] |}
  /\ exists w' rest,
       QueryPermissions (sample_env (answers_third "<html>")) open_client "x"
         ActionRead (Some member_options) w0
       = Returns (false, Some (Wrap (New "unexpected end of JSON input")
                                 "Failed to unmarshal response body")) w'
       /\ trace w' = EvUnmarshal :: rest ++ [EvMarshal]
       /\ List.length (filter is_send rest) = 3.
Proof.
  split; [reflexivity|]. split.
  - apply (proj1 (serialization_failures_are_not_retried failing_env open_client
                    "x" [] ActionRead member_options w0 eq_refl)).
    reflexivity.
  - destruct (proj1 (proj2 (proj2
               (serialization_failures_are_not_retried
                  (sample_env (answers_third "<html>")) open_client
                  "x" [] ActionRead member_options w0 eq_refl)))
               (render plain_quote
                  (encode_PermissionQueryRequest
                     (queryRequest "x" ActionRead member_options)))
               2 "<html>"%string (New "unexpected end of JSON input"))
      as (w' & rest & Hrun & Htrace & _ & _ & Hsends).
    + reflexivity.
    + check_schedule.
    + reflexivity.
    + exists w', rest. auto.
Defined.

(** A run ends with the transport error exactly when every attempt it made
    failed. *)
Lemma run_facts_timeout {D R} (E : Env) (dec : string -> error + D)
    (value : D -> R) (default : R) (rq : HTTPRequest) (w w' : World)
    (new : list Event) (v : R) (err : option error) :
  run_facts E dec value default rq w w' new v err ->
  ((forall i, i < List.length (filter is_send new) ->
      reply_body http_StatusOK (server E (attempts w + i) rq) = None) ->
   v = default /\ err = Some (Wrap timed_out "Failed to send HTTP request to OPA"))
  /\ (err = Some (Wrap timed_out "Failed to send HTTP request to OPA") ->
      forall i, i < List.length (filter is_send new) ->
        reply_body http_StatusOK (server E (attempts w + i) rq) = None).
Proof.
  intros (_ & _ & _ & _ & _ & Hcount & Hatt & Hverdict). split.
  - intros Hfail.
    assert (Hcontra : forall n body,
              attempts w' = S n ->
              reply_body http_StatusOK (server E n rq) = Some body -> False).
    { intros n body Hn Hreply.
      specialize (Hfail (List.length (filter is_send new) - 1) ltac:(lia)).
      replace (attempts w + (List.length (filter is_send new) - 1)) with n in Hfail
        by lia.
      congruence. }
    destruct err as [e|].
    + destruct Hverdict as [Hv [(He & _)|(n & body & cause & rest & Hn & Hreply & _)]].
      * subst. auto.
      * exfalso. eauto.
    + destruct Hverdict as (n & body & d & Hn & Hreply & _). exfalso. eauto.
  - intros Herr. subst err.
    destruct Hverdict as [_ [(_ & _ & Hfail)|(n & body & cause & rest & _ & _ & _ & Habs & _)]].
    + exact Hfail.
    + discriminate Habs.
Qed.

(** A success within the window ends the exchange there and is what the
    decoder gets to see. *)
Lemma finish_success_delivered {D R} (E : Env) (c : HTTPClient)
    (dec : string -> error + D) (value : D -> R) (default : R)
    (done url requestBody : string) (w w' : World) (k : nat) (body : string)
    (v : R) (err : option error) :
  succeeds_after E (postRequest E url requestBody) (1 * Second)%N
    (clock w + 6 * Second)%N k (attempts w) (clock w) body ->
  finish c dec value default done
    (retryUntilSuccessful (6 * Second)%N (1 * Second)%N
       (sendProbe E url requestBody (requestHeaders E)) (""%string, None)
       (encoded c w))
  = Returns (v, err) w' ->
  attempts w' = attempts w + S k
  /\ match dec body with
     | inl cause =>
         v = default /\ err = Some (Wrap cause "Failed to unmarshal response body")
     | inr d => v = value d /\ err = None
     end.
Proof.
  intros Hs.
  destruct (finish_succeeds E c dec value default done url requestBody w k body Hs)
    as (w2 & Hatt & Hrun).
  rewrite Hrun.
  assert (Hdec : attempts (decoding c w2) = attempts w2).
  { unfold decoding. change (attempts (emit EvUnmarshal ?x)) with (attempts x).
    apply logged_attempts. }
  destruct (dec body) as [cause|d]; intros H; inversion H; subst.
  - rewrite Hdec. auto.
  - rewrite logged_attempts, Hdec. auto.
Qed.

(** C5. In both query paths the whole request/response exchange runs inside
    the bounded retrier, entered once with a total timeout of six seconds
    and a poll interval of one second. The run always returns; its attempts
    and sleeps alternate, one attempt per round, every attempt sends the
    same request and starts within six seconds of the start, every sleep
    lasts one second, and there are between one and seven attempts. The run
    ends with the timeout error exactly when every attempt it made failed,
    and then with the default result ([false], nil slice); a transport whose
    seven attempts of the window all fail yields it, whatever it would
    answer later. A transport that succeeds after [k] failed attempts within
    the window ends the exchange at attempt [k + 1]: no further attempt is
    made, the result is the decoder's verdict on that answer, and it is the
    result of a transport that succeeds at once. *)
Theorem exchange_is_retried_within_six_seconds (E : Env) (c : HTTPClient)
    (resource : string) (resources : list string) (action : Action)
    (o : PermissionOptions) (w : World) :
  bypasses c o = false ->
  (forall requestBody,
     json_Marshal_query E (queryRequest resource action o) = inr requestBody ->
     exists v err w' new,
       QueryPermissions E c resource action (Some o) w = Returns (v, err) w'
       /\ trace w' = new ++ EvMarshal :: trace w
       /\ filter is_retry new = [EvRetry (6 * Second)%N (1 * Second)%N]
       /\ Forall (query_event (queryPost E c requestBody) (clock w + 6 * Second)%N) new
       /\ rounds_shape (exchange_events new) = true
       /\ 1 <= List.length (filter is_send new) <= 7
       /\ ((forall i, i < List.length (filter is_send new) ->
              reply_body http_StatusOK
                (server E (attempts w + i) (queryPost E c requestBody)) = None) ->
           v = false /\
           err = Some (Wrap timed_out "Failed to send HTTP request to OPA"))
       /\ (err = Some (Wrap timed_out "Failed to send HTTP request to OPA") ->
           forall i, i < List.length (filter is_send new) ->
             reply_body http_StatusOK
               (server E (attempts w + i) (queryPost E c requestBody)) = None)
       /\ (fails_through_window E (queryPost E c requestBody) (attempts w) ->
           v = false /\
           err = Some (Wrap timed_out "Failed to send HTTP request to OPA"))
       /\ (never_succeeds E (queryPost E c requestBody) (attempts w) ->
           v = false /\
           err = Some (Wrap timed_out "Failed to send HTTP request to OPA"))
       /\ (forall k body,
             succeeds_after E (queryPost E c requestBody) (1 * Second)%N
               (clock w + 6 * Second)%N k (attempts w) (clock w) body ->
             List.length (filter is_send new) = S k
             /\ match json_Unmarshal_query E body with
                | inl cause =>
                    v = false /\
                    err = Some (Wrap cause "Failed to unmarshal response body")
                | inr resp => v = Query_Result resp /\ err = None
                end
             /\ returned (QueryPermissions (answering E body) c resource action
                            (Some o) w)
                = Some (v, err)))
  /\ (forall requestBody,
        json_Marshal_filter E (filterRequest resources action o) = inr requestBody ->
        exists v err w' new,
          QueryPermissionsMultiResources E c resources action (Some o) w
          = Returns (v, err) w'
          /\ trace w' = new ++ EvMarshal :: trace w
          /\ filter is_retry new = [EvRetry (6 * Second)%N (1 * Second)%N]
          /\ Forall (query_event (filterPost E c requestBody) (clock w + 6 * Second)%N) new
          /\ rounds_shape (exchange_events new) = true
          /\ 1 <= List.length (filter is_send new) <= 7
          /\ ((forall i, i < List.length (filter is_send new) ->
                 reply_body http_StatusOK
                   (server E (attempts w + i) (filterPost E c requestBody)) = None) ->
              v = None /\
              err = Some (Wrap timed_out "Failed to send HTTP request to OPA"))
          /\ (err = Some (Wrap timed_out "Failed to send HTTP request to OPA") ->
              forall i, i < List.length (filter is_send new) ->
                reply_body http_StatusOK
                  (server E (attempts w + i) (filterPost E c requestBody)) = None)
          /\ (fails_through_window E (filterPost E c requestBody) (attempts w) ->
              v = None /\
              err = Some (Wrap timed_out "Failed to send HTTP request to OPA"))
          /\ (never_succeeds E (filterPost E c requestBody) (attempts w) ->
              v = None /\
              err = Some (Wrap timed_out "Failed to send HTTP request to OPA"))
          /\ (forall k body,
                succeeds_after E (filterPost E c requestBody) (1 * Second)%N
                  (clock w + 6 * Second)%N k (attempts w) (clock w) body ->
                List.length (filter is_send new) = S k
                /\ match json_Unmarshal_filter E body with
                   | inl cause =>
                       v = None /\
                       err = Some (Wrap cause "Failed to unmarshal response body")
                   | inr resp => v = filterVerdicts resources resp /\ err = None
                   end
                /\ returned (QueryPermissionsMultiResources (answering E body) c
                               resources action (Some o) w)
                   = Some (v, err))).
Proof.
  intros Hb. split; intros rb Hm.
  - destruct (QueryPermissions_network_run _ c _ _ _ w _ Hb Hm)
      as (v & err & w' & new & Hrun & Hfacts).
    exists v, err, w', new. split; [exact Hrun|].
    pose proof Hfacts as (Htrace & Hretry & _ & Hall & Hshape & Hcount & Hatt & _).
    destruct (run_facts_timeout _ _ _ _ _ _ _ _ _ _ Hfacts) as [Hfailed Honly].
    repeat (split; [assumption|]).
    split; [intros Hwindow; apply Hfailed; intros i Hi; apply Hwindow; lia|].
    split; [intros Hnever; apply Hfailed; intros i Hi; apply Hnever|].
    intros k body Hs.
    pose proof Hrun as Hfinish.
    rewrite (QueryPermissions_network _ _ _ _ _ _ _ Hb Hm) in Hfinish.
    destruct (finish_success_delivered E c (json_Unmarshal_query E) Query_Result false
                "Successfully unmarshalled permission response" _ rb w w' k body
                v err Hs Hfinish) as [Hstop Hverdict].
    split; [lia|]. split; [exact Hverdict|].
    rewrite (QueryPermissions_same_as_immediate _ _ _ _ _ _ _ _ _ Hb Hm Hs), Hrun.
    reflexivity.
  - destruct (QueryPermissionsMultiResources_network_run _ c _ _ _ w _ Hb Hm)
      as (v & err & w' & new & Hrun & Hfacts).
    exists v, err, w', new. split; [exact Hrun|].
    pose proof Hfacts as (Htrace & Hretry & _ & Hall & Hshape & Hcount & Hatt & _).
    destruct (run_facts_timeout _ _ _ _ _ _ _ _ _ _ Hfacts) as [Hfailed Honly].
    repeat (split; [assumption|]).
    split; [intros Hwindow; apply Hfailed; intros i Hi; apply Hwindow; lia|].
    split; [intros Hnever; apply Hfailed; intros i Hi; apply Hnever|].
    intros k body Hs.
    pose proof Hrun as Hfinish.
    rewrite (QueryPermissionsMultiResources_network _ _ _ _ _ _ _ Hb Hm) in Hfinish.
    destruct (finish_success_delivered E c (json_Unmarshal_filter E)
                (filterVerdicts resources) None
                "Successfully unmarshalled permission filter response" _ rb w w' k body
                v err Hs Hfinish) as [Hstop Hverdict].
    split; [lia|]. split; [exact Hverdict|].
    rewrite (QueryPermissionsMultiResources_same_as_immediate _ _ _ _ _ _ _ _ _ Hb Hm Hs),
      Hrun.
    reflexivity.
Qed.

Lemma exchange_is_retried_within_six_seconds_witness :
  bypasses open_client member_options = false
  /\ fails_through_window (sample_env (answers_eighth body_result_false))
       (queryPost (sample_env (answers_eighth body_result_false)) open_client
          (render plain_quote (query_document "x" ActionRead ["u1"]%string)))
       (attempts w0)
  /\ (exists w',
        QueryPermissions (sample_env (answers_eighth body_result_false)) open_client "x"
          ActionRead (Some member_options) w0
        = Returns (false, Some (Wrap timed_out "Failed to send HTTP request to OPA")) w')
  /\ (exists w',
        QueryPermissions (sample_env (answers_third body_result_false)) open_client "x"
          ActionRead (Some member_options) w0
        = Returns (false, None) w'
        /\ attempts w' = 3)
  /\ returned (QueryPermissions
                 (answering (sample_env (answers_third body_result_false))
                    body_result_false)
                 open_client "x" ActionRead (Some member_options) w0)
     = returned (QueryPermissions (sample_env (answers_third body_result_false))
                   open_client "x" ActionRead (Some member_options) w0).
Proof.
  assert (Hwindow : fails_through_window (sample_env (answers_eighth body_result_false))
            (queryPost (sample_env (answers_eighth body_result_false)) open_client
               (render plain_quote (query_document "x" ActionRead ["u1"]%string)))
            (attempts w0)).
  { intros i Hi. do 7 (destruct i as [|i]; [reflexivity|]). lia. }
  split; [reflexivity|]. split; [exact Hwindow|]. split; [|split].
  - destruct (proj1 (exchange_is_retried_within_six_seconds
                       (sample_env (answers_eighth body_result_false))
                       open_client "x" [] ActionRead member_options w0 eq_refl)
                (render plain_quote (query_document "x" ActionRead ["u1"]%string))
                eq_refl)
      as (v & err & w' & new & Hrun & _ & _ & _ & _ & _ & _ & _ & Hfails & _).
    destruct (Hfails Hwindow) as [Hv Herr].
    exists w'. rewrite Hrun, Hv, Herr. reflexivity.
  - destruct (proj1 (exchange_is_retried_within_six_seconds
                       (sample_env (answers_third body_result_false))
                       open_client "x" [] ActionRead member_options w0 eq_refl)
                (render plain_quote (query_document "x" ActionRead ["u1"]%string))
                eq_refl)
      as (v & err & w' & new & Hrun & Htrace & _ & _ & _ & _ & _ & _ & _ & _ & Hsuccess).
    destruct (Hsuccess 2 body_result_false) as (Hsends & Hverdict & _);
      [check_schedule|].
    destruct Hverdict as [Hv Herr]. simpl in Hv.
    exists w'. rewrite Hrun, Hv, Herr. split; [reflexivity|].
    unfold attempts. rewrite Htrace, filter_app, length_app, Hsends. reflexivity.
  - destruct (proj1 (exchange_is_retried_within_six_seconds
                       (sample_env (answers_third body_result_false))
                       open_client "x" [] ActionRead member_options w0 eq_refl)
                (render plain_quote (query_document "x" ActionRead ["u1"]%string))
                eq_refl)
      as (v & err & w' & new & Hrun & _ & _ & _ & _ & _ & _ & _ & _ & _ & Hsuccess).
    destruct (Hsuccess 2 body_result_false) as (_ & _ & Hsame); [check_schedule|].
    rewrite Hsame, Hrun. reflexivity.
Defined.

(** C8, as the code has it. With [encoding/json] as the encoder, every
    request [QueryPermissions] sends (there is at least one) carries the
    document whose "input" object holds "resource", "action" and "ids" in
    that order, each one only when its value is not empty: the three fields
    are tagged [omitempty]. When the resource, the action and the member ids
    are all non-empty this is the document of the wire protocol. *)
Theorem query_body_omits_empty_fields (quote : string -> string) (E : Env)
    (c : HTTPClient) (resource : string) (action : Action) (o : PermissionOptions)
    (w : World) :
  json_Marshal_query E = go_Marshal_query quote ->
  bypasses c o = false ->
  exists out w' new,
    QueryPermissions E c resource action (Some o) w = Returns out w'
    /\ trace w' = new ++ EvMarshal :: trace w
    /\ 1 <= List.length (filter is_send new)
    /\ (forall t rq, In (EvSend t rq) new ->
          rq_body rq = render quote (query_document resource action (MemberIds o)))
    /\ (resource <> ""%string -> action <> ""%string -> MemberIds o <> [] ->
        query_document resource action (MemberIds o)
        = wire_query_document resource action (MemberIds o)).
Proof.
  intros Hcodec Hb.
  assert (Hm : json_Marshal_query E (queryRequest resource action o)
               = inr (render quote (query_document resource action (MemberIds o))))
    by (rewrite Hcodec; reflexivity).
  destruct (QueryPermissions_network_run _ c _ _ _ w _ Hb Hm)
    as (v & err & w' & new & Hrun & Htrace & _ & _ & Hall & _ & Hcount & _).
  exists (v, err), w', new. split; [exact Hrun|]. split; [exact Htrace|].
  split; [lia|]. split.
  - intros t rq Hin. rewrite Forall_forall in Hall.
    destruct (Hall _ Hin) as [Hrq _]. subst rq. reflexivity.
  - intros Hr Ha Hids. unfold query_document, wire_query_document,
      omitempty_string, omitempty_strings.
    destruct (String.eqb_spec resource ""); [contradiction|].
    destruct (String.eqb_spec action ""); [contradiction|].
    destruct (MemberIds o); [contradiction|]. reflexivity.
Qed.

Lemma query_body_omits_empty_fields_witness :
  json_Marshal_query (sample_env (answers body_result_false))
  = go_Marshal_query plain_quote
  /\ bypasses open_client member_options = false
  /\ sent_bodies (QueryPermissions (sample_env (answers body_result_false)) open_client
                    "x" ActionRead (Some member_options) w0)
     = [render plain_quote (wire_query_document "x" ActionRead ["u1"]%string)]
  /\ exists out w' new,
       QueryPermissions (sample_env (answers body_result_false)) open_client "x"
         ActionRead (Some member_options) w0 = Returns out w'
       /\ trace w' = new ++ [EvMarshal]
       /\ 1 <= List.length (filter is_send new).
Proof.
  split; [reflexivity|]. split; [reflexivity|]. split; [reflexivity|].
  destruct (query_body_omits_empty_fields plain_quote
              (sample_env (answers body_result_false)) open_client "x" ActionRead
              member_options w0 eq_refl eq_refl)
    as (out & w' & new & Hrun & Htrace & Hcount & _).
  exists out, w', new. auto.
Defined.

(** C8 as stated fails: for the empty resource string the body sent has no
    "resource" key, so it is not the document of the wire protocol. *)
Lemma empty_resource_is_omitted :
  sent_bodies (QueryPermissions (sample_env (answers body_result_false)) open_client
                 "" ActionRead (Some member_options) w0)
  = [render plain_quote
       (JObject [("input", JObject [("action", JString "read");
                                    ("ids", JArray [JString "u1"])])])]
  /\ sent_bodies (QueryPermissions (sample_env (answers body_result_false)) open_client
                    "" ActionRead (Some member_options) w0)
     <> [render plain_quote (wire_query_document "" ActionRead ["u1"]%string)]
  /\ sent_bodies (QueryPermissions (sample_env (answers body_result_false)) open_client
                    "" "" (Some secret_options) w0)
     = [render plain_quote (JObject [("input", JObject [])])].
Proof.
  split; [reflexivity|]. split; [vm_compute; discriminate | reflexivity].
Qed.

(** C10. The batch result is invariant under permutation and duplication of
    the server's decoded allowed-subset, and entries of it that are not
    among the requested resources have no effect: rewriting the decoded
    subset in any way that keeps, for every requested resource, whether it
    is a member, leaves the whole run as it was. *)
Theorem batch_result_depends_on_membership_only (E : Env) (c : HTTPClient)
    (resources : list string) (action : Action) (opts : option PermissionOptions)
    (w : World) :
  (forall allowed allowed',
     Permutation allowed allowed' -> same_members resources allowed allowed')
  /\ (forall allowed, same_members resources allowed (allowed ++ allowed))
  /\ (forall allowed,
        same_members resources allowed (filter (slices_Contains resources) allowed))
  /\ (forall shuffle,
        (forall allowed, same_members resources allowed (shuffle allowed)) ->
        QueryPermissionsMultiResources
          (with_filter_decoder E (shuffled shuffle (json_Unmarshal_filter E)))
          c resources action opts w
        = QueryPermissionsMultiResources E c resources action opts w).
Proof.
  split; [intros; apply same_members_permutation; assumption|].
  split; [intros; apply same_members_duplicated|].
  split; [intros; apply same_members_requested_only|].
  intros shuffle Hsame.
  set (E' := with_filter_decoder E (shuffled shuffle (json_Unmarshal_filter E))).
  destruct opts as [o|];
    [|rewrite !QueryPermissionsMultiResources_nil_options; reflexivity].
  destruct (bypasses c o) eqn:Hb.
  - rewrite !(QueryPermissionsMultiResources_bypass _ _ _ _ _ _ Hb). reflexivity.
  - destruct (json_Marshal_filter E (filterRequest resources action o)) as [e|rb] eqn:Hm.
    + rewrite (QueryPermissionsMultiResources_encode_error E _ _ _ _ _ _ Hb Hm).
      apply QueryPermissionsMultiResources_encode_error; assumption.
    + rewrite (QueryPermissionsMultiResources_network E _ _ _ _ _ _ Hb Hm).
      rewrite (QueryPermissionsMultiResources_network E' _ _ _ _ _ rb Hb Hm).
      unfold E'. rewrite sendProbe_with_filter_decoder.
      destruct (retryUntilSuccessful _ _ _ _ _) as [[[err|] [body e']] w2| |];
        try reflexivity.
      simpl json_Unmarshal_filter. unfold shuffled.
      destruct (json_Unmarshal_filter E body) as [cause|resp]; [reflexivity|].
      simpl Filter_Result.
      rewrite <- (same_members_verdicts resources (Filter_Result resp)
                    (shuffle (Filter_Result resp)) (Hsame _)).
      reflexivity.
Qed.

Lemma batch_result_depends_on_membership_only_witness :
  same_members ["a"; "b"; "c"]%string ["a"; "c"]%string ["c"; "a"]%string
  /\ QueryPermissionsMultiResources
       (with_filter_decoder (sample_env (answers body_result_a_c))
          (shuffled (fun allowed => rev allowed ++ allowed)
             (json_Unmarshal_filter (sample_env (answers body_result_a_c)))))
       open_client ["a"; "b"; "c"]%string ActionRead (Some member_options) w0
     = QueryPermissionsMultiResources (sample_env (answers body_result_a_c))
         open_client ["a"; "b"; "c"]%string ActionRead (Some member_options) w0.
Proof.
  pose proof (batch_result_depends_on_membership_only
                (sample_env (answers body_result_a_c)) open_client
                ["a"; "b"; "c"]%string ActionRead (Some member_options) w0)
    as (Hperm & _ & _ & Hrun).
  split.
  - apply Hperm. apply perm_swap.
  - apply (Hrun (fun allowed => rev allowed ++ allowed)).
    intros allowed resource _. rewrite in_app_iff, <- in_rev. tauto.
Defined.

(** * Further properties of the clients *)

Lemma bypasses_iff (c : HTTPClient) (o : PermissionOptions) :
  bypasses c o = true <->
  overrideHeaderValue c <> ""%string /\ OverrideHeaderValue o = overrideHeaderValue c.
Proof.
  unfold bypasses. rewrite andb_true_iff, negb_true_iff, String.eqb_neq, String.eqb_eq.
  tauto.
Qed.

Lemma in_new_events (w w' : World) (new : list Event) (e : Event) :
  trace w' = new ++ EvMarshal :: trace w ->
  In e (trace w') -> is_send e = true -> In e new \/ In e (trace w).
Proof.
  intros Htrace Hin Hsend. rewrite Htrace in Hin.
  apply in_app_or in Hin. destruct Hin as [Hin|[Heq|Hin]]; auto.
  subst e. discriminate.
Qed.

(** X1. With [encoding/json] as the encoder, every request
    [QueryPermissionsMultiResources] sends (there is at least one) carries
    the document whose "input" object holds "resources", "action" and "ids"
    in that order, each one only when its value is not empty. For an empty
    resource list the "resources" key is absent: the body is the one a
    request without that field would have. *)
Theorem filter_body_omits_empty_fields (quote : string -> string) (E : Env)
    (c : HTTPClient) (resources : list string) (action : Action)
    (o : PermissionOptions) (w : World) :
  json_Marshal_filter E = go_Marshal_filter quote ->
  bypasses c o = false ->
  exists out w' new,
    QueryPermissionsMultiResources E c resources action (Some o) w = Returns out w'
    /\ trace w' = new ++ EvMarshal :: trace w
    /\ 1 <= List.length (filter is_send new)
    /\ (forall t rq, In (EvSend t rq) new ->
          rq_body rq = render quote (filter_document resources action (MemberIds o)))
    /\ (resources = [] ->
        filter_document resources action (MemberIds o)
        = JObject [("input", JObject (omitempty_string "action" action
                                      ++ omitempty_strings "ids" (MemberIds o)))])
    /\ (resources <> [] -> action <> ""%string -> MemberIds o <> [] ->
        filter_document resources action (MemberIds o)
        = JObject [("input", JObject [("resources", JArray (map JString resources));
                                      ("action", JString action);
                                      ("ids", JArray (map JString (MemberIds o)))])]).
Proof.
  intros Hcodec Hb.
  assert (Hm : json_Marshal_filter E (filterRequest resources action o)
               = inr (render quote (filter_document resources action (MemberIds o))))
    by (rewrite Hcodec; reflexivity).
  destruct (QueryPermissionsMultiResources_network_run _ c _ _ _ w _ Hb Hm)
    as (v & err & w' & new & Hrun & Htrace & _ & _ & Hall & _ & Hcount & _).
  exists (v, err), w', new. split; [exact Hrun|]. split; [exact Htrace|].
  split; [lia|]. split; [|split].
  - intros t rq Hin. rewrite Forall_forall in Hall.
    destruct (Hall _ Hin) as [Hrq _]. subst rq. reflexivity.
  - intros Hres. subst resources. reflexivity.
  - intros Hr Ha Hids. unfold filter_document, omitempty_string, omitempty_strings.
    destruct resources; [contradiction|].
    destruct (String.eqb_spec action ""); [contradiction|].
    destruct (MemberIds o); [contradiction|]. reflexivity.
Qed.

Lemma filter_body_omits_empty_fields_witness :
  json_Marshal_filter (sample_env (answers body_result_a_c)) = go_Marshal_filter plain_quote
  /\ bypasses open_client member_options = false
  /\ sent_bodies (QueryPermissionsMultiResources (sample_env (answers body_result_a_c))
                    open_client [] ActionRead (Some member_options) w0)
     = [render plain_quote
          (JObject [("input", JObject [("action", JString "read");
                                       ("ids", JArray [JString "u1"])])])]
  /\ exists out w' new,
       QueryPermissionsMultiResources (sample_env (answers body_result_a_c)) open_client
         [] ActionRead (Some member_options) w0 = Returns out w'
       /\ trace w' = new ++ [EvMarshal]
       /\ 1 <= List.length (filter is_send new).
Proof.
  split; [reflexivity|]. split; [reflexivity|]. split; [reflexivity|].
  destruct (filter_body_omits_empty_fields plain_quote
              (sample_env (answers body_result_a_c)) open_client [] ActionRead
              member_options w0 eq_refl eq_refl)
    as (out & w' & new & Hrun & Htrace & Hcount & _).
  exists out, w', new. auto.
Defined.

(** X2. Every request either operation sends is a POST to the client's
    address followed by the path of that operation (the query path for
    [QueryPermissions], the filter path for
    [QueryPermissionsMultiResources]), with the JSON content type and the
    user agent as its only headers, no cookies, status 200 expected, and the
    serialised request as its body. *)
Theorem requests_are_json_posts (E : Env) (c : HTTPClient) (resource : string)
    (resources : list string) (action : Action) (opts : option PermissionOptions)
    (w : World) :
  (forall out w' t rq,
     QueryPermissions E c resource action opts w = Returns out w' ->
     In (EvSend t rq) (trace w') ->
     In (EvSend t rq) (trace w) \/
     exists o,
       opts = Some o /\
       rq_method rq = "POST"%string /\
       rq_url rq = (address c ++ permissionQueryPath c)%string /\
       rq_headers rq = [("Content-Type", "application/json"); ("User-Agent", UserAgent E)]%string /\
       rq_cookies rq = [] /\
       rq_expectedStatus rq = 200%N /\
       json_Marshal_query E (queryRequest resource action o) = inr (rq_body rq))
  /\ (forall out w' t rq,
        QueryPermissionsMultiResources E c resources action opts w = Returns out w' ->
        In (EvSend t rq) (trace w') ->
        In (EvSend t rq) (trace w) \/
        exists o,
          opts = Some o /\
          rq_method rq = "POST"%string /\
          rq_url rq = (address c ++ permissionFilterPath c)%string /\
          rq_headers rq = [("Content-Type", "application/json"); ("User-Agent", UserAgent E)]%string /\
          rq_cookies rq = [] /\
          rq_expectedStatus rq = 200%N /\
          json_Marshal_filter E (filterRequest resources action o) = inr (rq_body rq)).
Proof.
  split; intros out w' t rq Hrun Hin.
  - destruct opts as [o|]; [|rewrite QueryPermissions_nil_options in Hrun; discriminate].
    destruct (bypasses c o) eqn:Hb.
    + rewrite (QueryPermissions_bypass _ _ _ _ _ _ Hb) in Hrun.
      inversion Hrun; subst. auto.
    + destruct (json_Marshal_query E (queryRequest resource action o)) as [e|rb] eqn:Hm.
      * rewrite (QueryPermissions_encode_error _ _ _ _ _ _ _ Hb Hm) in Hrun.
        inversion Hrun; subst. destruct Hin as [Habs|Hin]; [discriminate|auto].
      * destruct (QueryPermissions_network_run _ c _ _ _ w _ Hb Hm)
          as (v & err & w2 & new & Hrun' & Htrace & _ & _ & Hall & _).
        rewrite Hrun' in Hrun. inversion Hrun; subst.
        destruct (in_new_events _ _ _ _ Htrace Hin eq_refl) as [Hnew|Hold]; [|auto].
        right. exists o. rewrite Forall_forall in Hall.
        destruct (Hall _ Hnew) as [Hrq _]. subst rq. repeat split. exact Hm.
  - destruct opts as [o|];
      [|rewrite QueryPermissionsMultiResources_nil_options in Hrun; discriminate].
    destruct (bypasses c o) eqn:Hb.
    + rewrite (QueryPermissionsMultiResources_bypass _ _ _ _ _ _ Hb) in Hrun.
      inversion Hrun; subst. auto.
    + destruct (json_Marshal_filter E (filterRequest resources action o)) as [e|rb] eqn:Hm.
      * rewrite (QueryPermissionsMultiResources_encode_error _ _ _ _ _ _ _ Hb Hm) in Hrun.
        inversion Hrun; subst. destruct Hin as [Habs|Hin]; [discriminate|auto].
      * destruct (QueryPermissionsMultiResources_network_run _ c _ _ _ w _ Hb Hm)
          as (v & err & w2 & new & Hrun' & Htrace & _ & _ & Hall & _).
        rewrite Hrun' in Hrun. inversion Hrun; subst.
        destruct (in_new_events _ _ _ _ Htrace Hin eq_refl) as [Hnew|Hold]; [|auto].
        right. exists o. rewrite Forall_forall in Hall.
        destruct (Hall _ Hnew) as [Hrq _]. subst rq. repeat split. exact Hm.
Qed.

Lemma requests_are_json_posts_witness :
  exists out w' rq,
    QueryPermissions (sample_env (answers body_result_false)) sample_client "x"
      ActionRead (Some member_options) w0 = Returns out w'
    /\ In (EvSend 0%N rq) (trace w')
    /\ rq_url rq = "http://opa:8181/v1/data/authz/allow"%string
    /\ rq_method rq = "POST"%string.
Proof.
  destruct (QueryPermissions (sample_env (answers body_result_false)) sample_client "x"
              ActionRead (Some member_options) w0) as [out w'| |] eqn:Hrun;
    [|vm_compute in Hrun; discriminate ..].
  assert (Hin : In (EvSend 0%N
                      (queryPost (sample_env (answers body_result_false)) sample_client
                         (render plain_quote
                            (query_document "x" ActionRead ["u1"]%string))))
                   (trace w')).
  { vm_compute in Hrun. inversion Hrun. simpl. auto 10. }
  destruct (proj1 (requests_are_json_posts (sample_env (answers body_result_false))
                     sample_client "x" [] ActionRead (Some member_options) w0)
              out w' _ _ Hrun Hin) as [Hold|(o & _ & Hmethod & Hurl & _)].
  - destruct Hold.
  - eexists out, w', _. split; [reflexivity|]. split; [exact Hin|].
    split; [exact Hurl | exact Hmethod].
Defined.

(** X3. An empty resource list is not short-circuited. Off the bypass path
    the filter request is still serialised and, once serialised, sent at
    least once; a run that ends without error returns the empty slice, which
    is not nil, and a run that ends with an error returns the nil slice. *)
Theorem empty_resource_list_is_still_queried (E : Env) (c : HTTPClient)
    (action : Action) (o : PermissionOptions) (w : World) :
  bypasses c o = false ->
  exists v err w' new,
    QueryPermissionsMultiResources E c [] action (Some o) w = Returns (v, err) w'
    /\ trace w' = new ++ EvMarshal :: trace w
    /\ (forall requestBody,
          json_Marshal_filter E (filterRequest [] action o) = inr requestBody ->
          1 <= List.length (filter is_send new))
    /\ (err = None -> v = Some [])
    /\ (err <> None -> v = None).
Proof.
  intros Hb.
  destruct (json_Marshal_filter E (filterRequest [] action o)) as [e|rb] eqn:Hm.
  - exists None, (Some (Wrap e "Failed to generate request body")), (emit EvMarshal w), [].
    split; [exact (QueryPermissionsMultiResources_encode_error _ _ _ _ _ _ _ Hb Hm)|].
    split; [reflexivity|]. split; [discriminate|]. split; [discriminate|reflexivity].
  - destruct (QueryPermissionsMultiResources_network_run _ c _ _ _ w _ Hb Hm)
      as (v & err & w' & new & Hrun & Htrace & _ & _ & _ & _ & Hcount & _ & Hverdict).
    exists v, err, w', new. split; [exact Hrun|]. split; [exact Htrace|].
    split; [intros; lia|]. destruct err as [e|].
    + destruct Hverdict as [Hv _]. split; [discriminate|intros _; exact Hv].
    + destruct Hverdict as (n & body & d & _ & _ & _ & Hv & _).
      split; [intros _; exact Hv|]. intros Habs. contradiction.
Qed.

Lemma empty_resource_list_is_still_queried_witness :
  bypasses open_client member_options = false
  /\ exists w',
       QueryPermissionsMultiResources (sample_env (answers body_result_a_c)) open_client
         [] ActionRead (Some member_options) w0 = Returns (Some [], None) w'
       /\ attempts w' = 1.
Proof.
  split; [reflexivity|].
  destruct (empty_resource_list_is_still_queried (sample_env (answers body_result_a_c))
              open_client ActionRead member_options w0 eq_refl)
    as (v & err & w' & new & Hrun & _).
  exists w'. pose proof Hrun as Hvalue. vm_compute in Hvalue.
  inversion Hvalue; subst. split; [exact Hrun | reflexivity].
Defined.

(** X4. The two extremes of a successful batch query off the bypass path,
    read against the allowed-subset decoded from the answer: an empty subset
    (also a response without a "result") denies every resource, with a nil
    error and a slice of full length; a subset that contains every requested
    resource allows all of them, which is the result the bypass gives. *)
Theorem batch_result_extremes (E : Env) (c : HTTPClient) (resources : list string)
    (action : Action) (o : PermissionOptions) (w w' : World) (results : list bool) :
  bypasses c o = false ->
  QueryPermissionsMultiResources E c resources action (Some o) w
  = Returns (Some results, None) w' ->
  exists n body requestBody resp,
    json_Marshal_filter E (filterRequest resources action o) = inr requestBody /\
    attempts w' = S n /\
    reply_body http_StatusOK (server E n (filterPost E c requestBody)) = Some body /\
    json_Unmarshal_filter E body = inr resp /\
    (Filter_Result resp = [] -> results = repeat false (List.length resources)) /\
    (incl resources (Filter_Result resp) ->
     results = repeat true (List.length resources)).
Proof.
  intros Hb Hrun.
  destruct (json_Marshal_filter E (filterRequest resources action o)) as [e|rb] eqn:Hm.
  - rewrite (QueryPermissionsMultiResources_encode_error _ _ _ _ _ _ _ Hb Hm) in Hrun.
    discriminate.
  - destruct (QueryPermissionsMultiResources_network_run _ c _ _ _ w _ Hb Hm)
      as (v & err & w2 & new & Hrun' & Hfacts).
    rewrite Hrun' in Hrun. inversion Hrun; subst.
    destruct Hfacts as (_ & _ & _ & _ & _ & _ & _ & n & body & resp & Hn & Hreply
                        & Hdec & Hv & _).
    exists n, body, rb, resp. split; [reflexivity|]. split; [exact Hn|].
    split; [exact Hreply|]. split; [exact Hdec|].
    unfold filterVerdicts in Hv. inversion Hv; subst. split.
    + intros Hempty. rewrite Hempty, <- map_const. reflexivity.
    + intros Hincl. rewrite <- map_const. apply map_ext_in.
      intros resource Hin. apply slices_Contains_In, Hincl, Hin.
Qed.

Lemma batch_result_extremes_witness :
  bypasses open_client member_options = false
  /\ exists w',
       QueryPermissionsMultiResources
         (with_filter_decoder (sample_env (answers body_result_empty))
            sample_Unmarshal_filter_wide)
         open_client ["a"; "b"]%string ActionRead (Some member_options) w0
       = Returns (Some [false; false], None) w'.
Proof.
  split; [reflexivity|].
  destruct (QueryPermissionsMultiResources
              (with_filter_decoder (sample_env (answers body_result_empty))
                 sample_Unmarshal_filter_wide)
              open_client ["a"; "b"]%string ActionRead (Some member_options) w0)
    as [[[results|] [e|]] w'| |] eqn:Hrun; try (vm_compute in Hrun; discriminate).
  destruct (batch_result_extremes
              (with_filter_decoder (sample_env (answers body_result_empty))
                 sample_Unmarshal_filter_wide)
              open_client ["a"; "b"]%string ActionRead member_options w0 w' results
              eq_refl Hrun)
    as (n & body & rb & resp & _ & _ & Hreply & Hdec & Hempty & _).
  exists w'. rewrite Hempty; [reflexivity|].
  vm_compute in Hreply. inversion Hreply; subst body.
  vm_compute in Hdec. inversion Hdec. reflexivity.
Defined.

Lemma bypasses_mismatch (c : HTTPClient) (o : PermissionOptions) :
  overrideHeaderValue c = ""%string \/ OverrideHeaderValue o <> overrideHeaderValue c ->
  bypasses c o = false.
Proof.
  intros H. destruct (bypasses c o) eqn:Hb; [|reflexivity].
  apply bypasses_iff in Hb. destruct Hb as [Hne Heq]. destruct H; contradiction.
Qed.

(** X5. The bypass is taken only on an exact match with a non-empty
    configured value. When no value is configured, or the options carry a
    different value (the empty one included), both operations take the
    normal path: the bypass test is false, the request is serialised first,
    and once serialised it is sent at least once. *)
Theorem mismatched_override_never_bypasses (E : Env) (c : HTTPClient)
    (resource : string) (resources : list string) (action : Action)
    (o : PermissionOptions) (w : World) :
  overrideHeaderValue c = ""%string \/ OverrideHeaderValue o <> overrideHeaderValue c ->
  overrideMatches c (Some o) w = Returns false w
  /\ (exists out w' new,
        QueryPermissions E c resource action (Some o) w = Returns out w'
        /\ trace w' = new ++ EvMarshal :: trace w
        /\ (forall b, json_Marshal_query E (queryRequest resource action o) = inr b ->
            1 <= List.length (filter is_send new)))
  /\ (exists out w' new,
        QueryPermissionsMultiResources E c resources action (Some o) w = Returns out w'
        /\ trace w' = new ++ EvMarshal :: trace w
        /\ (forall b, json_Marshal_filter E (filterRequest resources action o) = inr b ->
            1 <= List.length (filter is_send new))).
Proof.
  intros Hmis. pose proof (bypasses_mismatch c o Hmis) as Hb. split; [|split].
  - rewrite overrideMatches_some, Hb. reflexivity.
  - destruct (json_Marshal_query E (queryRequest resource action o)) as [e|rb] eqn:Hm.
    + exists (false, Some (Wrap e "Failed to generate request body")), (emit EvMarshal w), [].
      split; [exact (QueryPermissions_encode_error _ _ _ _ _ _ _ Hb Hm)|].
      split; [reflexivity|discriminate].
    + destruct (QueryPermissions_network_run _ c _ _ _ w _ Hb Hm)
        as (v & err & w' & new & Hrun & Htrace & _ & _ & _ & _ & Hcount & _).
      exists (v, err), w', new. split; [exact Hrun|]. split; [exact Htrace|].
      intros; lia.
  - destruct (json_Marshal_filter E (filterRequest resources action o)) as [e|rb] eqn:Hm.
    + exists (None, Some (Wrap e "Failed to generate request body")), (emit EvMarshal w), [].
      split; [exact (QueryPermissionsMultiResources_encode_error _ _ _ _ _ _ _ Hb Hm)|].
      split; [reflexivity|discriminate].
    + destruct (QueryPermissionsMultiResources_network_run _ c _ _ _ w _ Hb Hm)
        as (v & err & w' & new & Hrun & Htrace & _ & _ & _ & _ & Hcount & _).
      exists (v, err), w', new. split; [exact Hrun|]. split; [exact Htrace|].
      intros; lia.
Qed.

Lemma mismatched_override_never_bypasses_witness :
  (overrideHeaderValue sample_client = ""%string
   \/ OverrideHeaderValue wrong_secret_options <> overrideHeaderValue sample_client)
  /\ overrideMatches sample_client (Some wrong_secret_options) w0 = Returns false w0.
Proof.
  assert (H : overrideHeaderValue sample_client = ""%string
              \/ OverrideHeaderValue wrong_secret_options
                 <> overrideHeaderValue sample_client)
    by (right; discriminate).
  split; [exact H|].
  exact (proj1 (mismatched_override_never_bypasses (sample_env unreachable) sample_client
                  "x" [] ActionRead wrong_secret_options w0 H)).
Defined.

(** X6. Of the options, only [MemberIds] and the outcome of the bypass test
    influence a run: two option values with the same member ids and the same
    bypass outcome give the same run of either operation. So
    [RaiseForbidden] is never read, and off the bypass path the per-call
    override value has no effect and is not sent. *)
Theorem only_member_ids_and_bypass_matter (E : Env) (c : HTTPClient)
    (resource : string) (resources : list string) (action : Action)
    (o o' : PermissionOptions) (w : World) :
  MemberIds o = MemberIds o' ->
  bypasses c o = bypasses c o' ->
  QueryPermissions E c resource action (Some o) w
  = QueryPermissions E c resource action (Some o') w
  /\ QueryPermissionsMultiResources E c resources action (Some o) w
     = QueryPermissionsMultiResources E c resources action (Some o') w.
Proof.
  intros Hids Hb. unfold QueryPermissions, QueryPermissionsMultiResources, bind.
  rewrite !overrideMatches_some, <- Hb.
  destruct (bypasses c o); [split; reflexivity|].
  simpl. rewrite <- Hids. split; reflexivity.
Qed.

Lemma only_member_ids_and_bypass_matter_witness :
  MemberIds member_options = MemberIds forbidden_options
  /\ bypasses sample_client wrong_secret_options = bypasses sample_client forbidden_options
  /\ QueryPermissions (sample_env (answers body_result_false)) sample_client "x"
       ActionRead (Some wrong_secret_options) w0
     = QueryPermissions (sample_env (answers body_result_false)) sample_client "x"
         ActionRead (Some forbidden_options) w0.
Proof.
  split; [reflexivity|]. split; [reflexivity|].
  exact (proj1 (only_member_ids_and_bypass_matter
                  (sample_env (answers body_result_false)) sample_client "x" []
                  ActionRead wrong_secret_options forbidden_options w0
                  eq_refl eq_refl)).
Defined.

(** ** The no-op client *)

Lemma silenced_logged (b : bool) (lvl : Level) (msg : string) (w : World) :
  silenced (logged b lvl msg w) = silenced w.
Proof. destruct b; reflexivity. Qed.

(** X7. The no-op client allows everything on every input, a nil options
    pointer, an unknown action and an empty resource list included: the
    single query answers [(true, nil)], the batch query a slice of
    [len(resources)] elements that are all true. Up to log lines it does
    nothing: no request, no sleep, no serialisation, no time passes. *)
Theorem nop_client_allows_everything (n : NopClient) (resource : string)
    (resources : list string) (action : Action) (opts : option PermissionOptions)
    (w : World) :
  silence (Nop_QueryPermissions n resource action opts w)
  = Returns (true, None) (silenced w)
  /\ silence (Nop_QueryPermissionsMultiResources n resources action opts w)
     = Returns (Some (repeat true (List.length resources)), None) (silenced w).
Proof.
  unfold Nop_QueryPermissions, Nop_QueryPermissionsMultiResources, bind.
  rewrite !when_log_run, allowAll_make. simpl. rewrite !silenced_logged.
  split; reflexivity.
Qed.

(** X8. With a matching override configured, the HTTP client is the silent
    no-op client: both operations give the same result and leave the same
    world as their no-op counterparts, whatever the codec and the network
    are. *)
Theorem bypass_is_the_nop_client (E : Env) (c : HTTPClient) (resource : string)
    (resources : list string) (action : Action) (o : PermissionOptions) (w : World) :
  overrideHeaderValue c <> ""%string ->
  OverrideHeaderValue o = overrideHeaderValue c ->
  QueryPermissions E c resource action (Some o) w
  = Nop_QueryPermissions (NewNopClient false) resource action (Some o) w
  /\ QueryPermissionsMultiResources E c resources action (Some o) w
     = Nop_QueryPermissionsMultiResources (NewNopClient false) resources action
         (Some o) w.
Proof.
  intros Hne Heq. pose proof (bypasses_true c o Hne Heq) as Hb.
  rewrite (QueryPermissions_bypass _ _ _ _ _ _ Hb),
    (QueryPermissionsMultiResources_bypass _ _ _ _ _ _ Hb).
  unfold Nop_QueryPermissions, Nop_QueryPermissionsMultiResources, bind.
  simpl. rewrite allowAll_make. split; reflexivity.
Qed.

Lemma bypass_is_the_nop_client_witness :
  overrideHeaderValue sample_client <> ""%string
  /\ OverrideHeaderValue secret_options = overrideHeaderValue sample_client
  /\ QueryPermissionsMultiResources (sample_env unreachable) sample_client
       ["a"; "b"]%string ActionDelete (Some secret_options) w0
     = Nop_QueryPermissionsMultiResources (NewNopClient false) ["a"; "b"]%string
         ActionDelete (Some secret_options) w0.
Proof.
  split; [discriminate|]. split; [reflexivity|].
  apply (proj2 (bypass_is_the_nop_client (sample_env unreachable) sample_client "x"
                  ["a"; "b"]%string ActionDelete secret_options w0
                  ltac:(discriminate) eq_refl)).
Defined.

(** ** The constructor *)

(** X9. A client built by [NewHTTPClient] never has a zero request timeout:
    a zero argument becomes the ten-second default and any other value is
    kept. The timeout of the underlying HTTP client is that same value, and
    building again from the stored timeout gives the same client. *)
Theorem NewHTTPClient_timeout (address permissionQueryPath permissionFilterPath : string)
    (requestTimeout0 : Duration) (verbose : bool) (overrideHeaderValue : string)
    (skipTLSVerify : bool) :
  let c := NewHTTPClient address permissionQueryPath permissionFilterPath
             requestTimeout0 verbose overrideHeaderValue skipTLSVerify in
  requestTimeout c <> 0%N
  /\ httpClient_Timeout c = requestTimeout c
  /\ (requestTimeout c = requestTimeout0
      \/ (requestTimeout0 = 0%N /\ requestTimeout c = (10 * Second)%N))
  /\ NewHTTPClient address permissionQueryPath permissionFilterPath
       (requestTimeout c) verbose overrideHeaderValue skipTLSVerify = c.
Proof.
  unfold NewHTTPClient. simpl.
  destruct (N.eqb_spec requestTimeout0 0) as [Hz|Hnz].
  - subst. repeat split; try discriminate. right. split; reflexivity.
  - destruct (N.eqb_spec requestTimeout0 0) as [Hz|_]; [contradiction|].
    repeat split; auto.
Qed.

(** ** Growing the allowed-subset *)

Lemma verdicts_allow_at_least (resources allowed allowed' : list string) :
  incl allowed allowed' ->
  allows_at_least (map (slices_Contains allowed) resources)
                  (map (slices_Contains allowed') resources).
Proof.
  intros Hincl i. rewrite !nth_error_map.
  destruct (nth_error resources i) as [resource|]; simpl; [|discriminate].
  intros H. inversion H as [Hc]. rewrite Hc. f_equal.
  apply slices_Contains_In. apply Hincl. apply slices_Contains_In. exact Hc.
Qed.

(** X10. Granting more never revokes: if the decoded allowed-subset is
    rewritten by something that only adds entries, a batch query that
    succeeded still succeeds, leaves the same world, and allows every
    position it allowed before. *)
Theorem granting_more_never_revokes (E : Env) (c : HTTPClient)
    (resources : list string) (action : Action) (opts : option PermissionOptions)
    (w w' : World) (shuffle : list string -> list string) (results : list bool) :
  only_adds shuffle ->
  QueryPermissionsMultiResources E c resources action opts w
  = Returns (Some results, None) w' ->
  exists results',
    QueryPermissionsMultiResources
      (with_filter_decoder E (shuffled shuffle (json_Unmarshal_filter E)))
      c resources action opts w
    = Returns (Some results', None) w'
    /\ List.length results' = List.length results
    /\ allows_at_least results results'.
Proof.
  intros Hadds.
  set (E' := with_filter_decoder E (shuffled shuffle (json_Unmarshal_filter E))).
  destruct opts as [o|];
    [|rewrite QueryPermissionsMultiResources_nil_options; discriminate].
  destruct (bypasses c o) eqn:Hb.
  - rewrite !(QueryPermissionsMultiResources_bypass _ _ _ _ _ _ Hb).
    intros H. inversion H; subst. eexists. split; [reflexivity|].
    split; [reflexivity|]. intros i Hi. exact Hi.
  - destruct (json_Marshal_filter E (filterRequest resources action o)) as [e|rb] eqn:Hm.
    + rewrite (QueryPermissionsMultiResources_encode_error E _ _ _ _ _ _ Hb Hm).
      discriminate.
    + rewrite (QueryPermissionsMultiResources_network E _ _ _ _ _ _ Hb Hm).
      rewrite (QueryPermissionsMultiResources_network E' _ _ _ _ _ rb Hb Hm).
      unfold E'. rewrite sendProbe_with_filter_decoder.
      destruct (retryUntilSuccessful _ _ _ _ _) as [[[err|] [body e']] w2| |];
        try discriminate.
      simpl json_Unmarshal_filter. unfold shuffled.
      destruct (json_Unmarshal_filter E body) as [cause|resp]; [discriminate|].
      simpl Filter_Result. intros H. inversion H; subst.
      eexists. split; [reflexivity|]. split; [rewrite !length_map; reflexivity|].
      apply verdicts_allow_at_least. intros resource. apply Hadds.
Qed.

Lemma granting_more_never_revokes_witness :
  only_adds (fun allowed => "b"%string :: allowed)
  /\ exists w',
       QueryPermissionsMultiResources (sample_env (answers body_result_a_c)) open_client
         ["a"; "b"; "c"]%string ActionRead (Some member_options) w0
       = Returns (Some [true; false; true], None) w'
       /\ QueryPermissionsMultiResources
            (with_filter_decoder (sample_env (answers body_result_a_c))
               (shuffled (fun allowed => "b"%string :: allowed)
                  (json_Unmarshal_filter (sample_env (answers body_result_a_c)))))
            open_client ["a"; "b"; "c"]%string ActionRead (Some member_options) w0
          = Returns (Some [true; true; true], None) w'.
Proof.
  assert (Hadds : only_adds (fun allowed => "b"%string :: allowed))
    by (intros allowed resource Hin; right; exact Hin).
  split; [exact Hadds|].
  destruct (QueryPermissionsMultiResources (sample_env (answers body_result_a_c))
              open_client ["a"; "b"; "c"]%string ActionRead (Some member_options) w0)
    as [[[results|] [e|]] w'| |] eqn:Hrun; try (vm_compute in Hrun; discriminate).
  destruct (granting_more_never_revokes _ _ _ _ _ _ _ _ _ Hadds Hrun)
    as (results' & Hrun' & _ & _).
  exists w'. pose proof Hrun as Hvalue. vm_compute in Hvalue.
  inversion Hvalue; subst. split; [reflexivity|].
  rewrite Hrun'. pose proof Hrun' as Hvalue'. vm_compute in Hvalue'.
  inversion Hvalue'. reflexivity.
Defined.

(** ** Verbosity *)

Lemma filter_send_silenced (t : list Event) :
  filter is_send (filter (fun e => negb (is_log e)) t) = filter is_send t.
Proof.
  induction t as [|e t IH]; [reflexivity|].
  destruct e; simpl; rewrite ?IH; reflexivity.
Qed.

Lemma attempts_silenced (w : World) : attempts (silenced w) = attempts w.
Proof. unfold attempts, silenced. simpl. rewrite filter_send_silenced. reflexivity. Qed.

Lemma silenced_same_attempts (w1 w2 : World) :
  silenced w1 = silenced w2 -> attempts w1 = attempts w2 /\ clock w1 = clock w2.
Proof.
  intros H. split.
  - rewrite <- (attempts_silenced w1), <- (attempts_silenced w2), H. reflexivity.
  - exact (f_equal clock H).
Qed.

Lemma silenced_emit (e : Event) (w1 w2 : World) :
  silenced w1 = silenced w2 -> silenced (emit e w1) = silenced (emit e w2).
Proof.
  intros H. unfold silenced, emit in *. simpl. inversion H as [[Hc Ht]].
  destruct (negb (is_log e)); rewrite Ht; reflexivity.
Qed.

Lemma silenced_advance (d : Duration) (w1 w2 : World) :
  silenced w1 = silenced w2 -> silenced (advance d w1) = silenced (advance d w2).
Proof.
  intros H. unfold silenced, advance in *. simpl. inversion H as [[Hc Ht]].
  reflexivity.
Qed.

Lemma silenced_sent (E : Env) (rq : HTTPRequest) (w1 w2 : World) :
  silenced w1 = silenced w2 -> silenced (sent E rq w1) = silenced (sent E rq w2).
Proof.
  intros H. destruct (silenced_same_attempts _ _ H) as [Hatt Hclock].
  unfold sent. rewrite Hatt, Hclock.
  apply silenced_advance, silenced_emit, H.
Qed.

(** The retry loop does the same from two worlds that differ in log lines
    only. *)
Lemma retryLoop_silenced (E : Env) (url body : string) (deadline interval : Duration)
    (fuel : nat) :
  forall (a : string * option error) (w1 w2 : World),
    silenced w1 = silenced w2 ->
    silence (retryLoop fuel deadline interval
               (sendProbe E url body (requestHeaders E)) a w1)
    = silence (retryLoop fuel deadline interval
                 (sendProbe E url body (requestHeaders E)) a w2).
Proof.
  induction fuel as [|fuel IH]; intros a w1 w2 H; [reflexivity|].
  rewrite !retryLoop_S, !sendProbe_run.
  destruct (silenced_same_attempts _ _ H) as [Hatt Hclock]. rewrite Hatt, Hclock.
  destruct (clock w2 <=? deadline)%N; [|simpl; rewrite H; reflexivity].
  destruct (reply_body http_StatusOK _) as [b|].
  - simpl. rewrite (silenced_sent E _ _ _ H). reflexivity.
  - apply IH. apply silenced_emit, silenced_advance, silenced_emit, silenced_sent, H.
Qed.

Lemma retryUntilSuccessful_silenced (E : Env) (url body : string)
    (a : string * option error) (w1 w2 : World) :
  silenced w1 = silenced w2 ->
  silence (retryUntilSuccessful (6 * Second)%N (1 * Second)%N
             (sendProbe E url body (requestHeaders E)) a w1)
  = silence (retryUntilSuccessful (6 * Second)%N (1 * Second)%N
               (sendProbe E url body (requestHeaders E)) a w2).
Proof.
  intros H. unfold retryUntilSuccessful, bind, tell, now.
  change (clock (emit ?e ?w)) with (clock w).
  rewrite (proj2 (silenced_same_attempts _ _ H)).
  apply retryLoop_silenced, silenced_emit, H.
Qed.

Lemma finish_silenced {D R} (c : HTTPClient) (b : bool) (dec : string -> error + D)
    (value : D -> R) (default : R) (done : string)
    (o1 o2 : outcome (option error * (string * option error))) :
  silence o1 = silence o2 ->
  silence (finish (with_verbose c b) dec value default done o1)
  = silence (finish c dec value default done o2).
Proof.
  intros H.
  destruct o1 as [[err1 [body1 e1]] w1|r1 w1|]; destruct o2 as [[err2 [body2 e2]] w2|r2 w2|];
    try discriminate H; try reflexivity.
  - simpl in H.
    assert (Hw : silenced w1 = silenced w2) by congruence.
    assert (Hv : (err1, (body1, e1)) = (err2, (body2, e2))) by congruence.
    inversion Hv; subst. unfold finish, decoding.
    destruct err2 as [err|].
    + simpl. rewrite !silenced_logged, Hw. reflexivity.
    + destruct (dec body2) as [cause|d]; simpl.
      * f_equal. apply silenced_emit. rewrite !silenced_logged. exact Hw.
      * rewrite !silenced_logged. f_equal. apply silenced_emit.
        rewrite !silenced_logged. exact Hw.
  - simpl in *. congruence.
Qed.

Lemma encoded_silenced (c : HTTPClient) (b : bool) (w : World) :
  silenced (encoded (with_verbose c b) w) = silenced (encoded c w).
Proof. unfold encoded. rewrite !silenced_logged. reflexivity. Qed.

Lemma returned_silence {A} (o : outcome A) : returned (silence o) = returned o.
Proof. destruct o; reflexivity. Qed.

(** X11. Verbose mode changes nothing but the log: with the verbosity of the
    client switched either way, both operations give the same outcome
    (result, error, or panic) and leave worlds that agree on the clock and
    on every event that is not a log line, the requests sent included. *)
Theorem verbose_only_adds_log_lines (E : Env) (c : HTTPClient) (b : bool)
    (resource : string) (resources : list string) (action : Action)
    (opts : option PermissionOptions) (w : World) :
  silence (QueryPermissions E (with_verbose c b) resource action opts w)
  = silence (QueryPermissions E c resource action opts w)
  /\ silence (QueryPermissionsMultiResources E (with_verbose c b) resources action opts w)
     = silence (QueryPermissionsMultiResources E c resources action opts w)
  /\ returned (QueryPermissions E (with_verbose c b) resource action opts w)
     = returned (QueryPermissions E c resource action opts w)
  /\ returned (QueryPermissionsMultiResources E (with_verbose c b) resources action opts w)
     = returned (QueryPermissionsMultiResources E c resources action opts w).
Proof.
  assert (Hq : silence (QueryPermissions E (with_verbose c b) resource action opts w)
               = silence (QueryPermissions E c resource action opts w)).
  { destruct opts as [o|]; [|rewrite !QueryPermissions_nil_options; reflexivity].
    assert (Hbb : bypasses (with_verbose c b) o = bypasses c o) by reflexivity.
    destruct (bypasses c o) eqn:Hb.
    - rewrite (QueryPermissions_bypass _ _ _ _ _ _ Hb),
        (QueryPermissions_bypass _ _ _ _ _ _ Hbb). reflexivity.
    - destruct (json_Marshal_query E (queryRequest resource action o)) as [e|rb] eqn:Hm.
      + rewrite (QueryPermissions_encode_error _ _ _ _ _ _ _ Hb Hm),
          (QueryPermissions_encode_error _ _ _ _ _ _ _ Hbb Hm). reflexivity.
      + rewrite (QueryPermissions_network _ _ _ _ _ _ _ Hb Hm),
          (QueryPermissions_network _ _ _ _ _ _ _ Hbb Hm).
        apply (finish_silenced c b (json_Unmarshal_query E) Query_Result false
                 "Successfully unmarshalled permission response").
        apply retryUntilSuccessful_silenced, encoded_silenced. }
  assert (Hm : silence (QueryPermissionsMultiResources E (with_verbose c b) resources
                          action opts w)
               = silence (QueryPermissionsMultiResources E c resources action opts w)).
  { destruct opts as [o|];
      [|rewrite !QueryPermissionsMultiResources_nil_options; reflexivity].
    assert (Hbb : bypasses (with_verbose c b) o = bypasses c o) by reflexivity.
    destruct (bypasses c o) eqn:Hb.
    - rewrite (QueryPermissionsMultiResources_bypass _ _ _ _ _ _ Hb),
        (QueryPermissionsMultiResources_bypass _ _ _ _ _ _ Hbb). reflexivity.
    - destruct (json_Marshal_filter E (filterRequest resources action o)) as [e|rb] eqn:Hm.
      + rewrite (QueryPermissionsMultiResources_encode_error _ _ _ _ _ _ _ Hb Hm),
          (QueryPermissionsMultiResources_encode_error _ _ _ _ _ _ _ Hbb Hm).
        reflexivity.
      + rewrite (QueryPermissionsMultiResources_network _ _ _ _ _ _ _ Hb Hm),
          (QueryPermissionsMultiResources_network _ _ _ _ _ _ _ Hbb Hm).
        apply (finish_silenced c b (json_Unmarshal_filter E) (filterVerdicts resources)
                 None "Successfully unmarshalled permission filter response").
        apply retryUntilSuccessful_silenced, encoded_silenced. }
  split; [exact Hq|]. split; [exact Hm|]. split.
  - rewrite <- returned_silence, Hq, returned_silence. reflexivity.
  - rewrite <- returned_silence, Hm, returned_silence. reflexivity.
Qed.

(** ** Warnings *)

Lemma retryLoop_warnings (E : Env) (url body : string) (deadline interval : Duration)
    (fuel : nat) :
  forall (a : string * option error) (w w' : World)
         (r : option error * (string * option error)),
    retryLoop fuel deadline interval (sendProbe E url body (requestHeaders E)) a w
    = Returns r w' ->
    attempts w' + warnings w
    = warnings w' + attempts w + (match fst r with None => 1 | Some _ => 0 end).
Proof.
  induction fuel as [|fuel IH]; intros a w w' r Hrun; [discriminate|].
  rewrite retryLoop_S, sendProbe_run in Hrun.
  destruct (clock w <=? deadline)%N.
  - destruct (reply_body http_StatusOK _) as [b|].
    + inversion Hrun; subst. unfold warnings, attempts. simpl. lia.
    + apply IH in Hrun. unfold warnings, attempts in *. simpl in Hrun. lia.
  - inversion Hrun; subst. simpl. lia.
Qed.

Lemma warnings_logged (b : bool) (lvl : Level) (msg : string) (w : World) :
  lvl <> LevelWarn -> warnings (logged b lvl msg w) = warnings w.
Proof.
  intros Hlvl. destruct b; [|reflexivity].
  unfold warnings. destruct lvl; try contradiction; reflexivity.
Qed.

Lemma finish_warnings {D R} (E : Env) (c : HTTPClient) (dec : string -> error + D)
    (value : D -> R) (default : R) (done url requestBody : string) (w w' : World)
    (v : R) (err : option error) :
  finish c dec value default done
    (retryUntilSuccessful (6 * Second)%N (1 * Second)%N
       (sendProbe E url requestBody (requestHeaders E)) (""%string, None)
       (encoded c w))
  = Returns (v, err) w' ->
  attempts w' + warnings w
  = warnings w' + attempts w + (if transport_failed err then 0 else 1).
Proof.
  unfold retryUntilSuccessful, bind, tell, now.
  destruct (retryLoop _ _ _ _ _ _) as [[verdict [body e']] w2| |] eqn:Hloop;
    try discriminate.
  apply retryLoop_warnings in Hloop. simpl fst in Hloop.
  assert (Hstart : warnings (emit (EvRetry (6 * Second)%N (1 * Second)%N) (encoded c w))
                   = warnings w
                   /\ attempts (emit (EvRetry (6 * Second)%N (1 * Second)%N) (encoded c w))
                      = attempts w).
  { split.
    - change (warnings (emit (EvRetry (6 * Second)%N (1 * Second)%N) (encoded c w)))
        with (warnings (encoded c w)).
      unfold encoded. rewrite warnings_logged by discriminate. reflexivity.
    - change (attempts (emit (EvRetry (6 * Second)%N (1 * Second)%N) (encoded c w)))
        with (attempts (encoded c w)).
      apply encoded_attempts. }
  destruct Hstart as (Hw0 & Ha0). rewrite Hw0, Ha0 in Hloop.
  unfold finish. destruct verdict as [e|].
  - intros H. inversion H; subst.
    rewrite warnings_logged by discriminate. rewrite logged_attempts. simpl. lia.
  - assert (Hdec : warnings (decoding c w2) = warnings w2
                   /\ attempts (decoding c w2) = attempts w2).
    { unfold decoding. split.
      - change (warnings (emit EvUnmarshal ?x)) with (warnings x).
        apply warnings_logged. discriminate.
      - change (attempts (emit EvUnmarshal ?x)) with (attempts x).
        apply logged_attempts. }
    destruct Hdec as (Hw1 & Ha1).
    destruct (dec body) as [cause|d]; intros H; inversion H; subst.
    + rewrite Hw1, Ha1. simpl. lia.
    + rewrite warnings_logged by discriminate.
      rewrite logged_attempts, Hw1, Ha1. simpl. lia.
Qed.

(** X12. Whatever the verbosity, the client logs exactly one warning for
    each failed transport attempt: over a run on the network path the
    attempts made are as many as the warnings added, plus the one attempt
    that succeeded unless the run ended with the transport error. *)
Theorem one_warning_per_failed_attempt (E : Env) (c : HTTPClient)
    (resource : string) (resources : list string) (action : Action)
    (o : PermissionOptions) (w : World) :
  bypasses c o = false ->
  (forall requestBody v err w',
     json_Marshal_query E (queryRequest resource action o) = inr requestBody ->
     QueryPermissions E c resource action (Some o) w = Returns (v, err) w' ->
     attempts w' + warnings w
     = warnings w' + attempts w + (if transport_failed err then 0 else 1))
  /\ (forall requestBody v err w',
        json_Marshal_filter E (filterRequest resources action o) = inr requestBody ->
        QueryPermissionsMultiResources E c resources action (Some o) w
        = Returns (v, err) w' ->
        attempts w' + warnings w
        = warnings w' + attempts w + (if transport_failed err then 0 else 1)).
Proof.
  intros Hb. split; intros rb v err w' Hm Hrun.
  - rewrite (QueryPermissions_network _ _ _ _ _ _ _ Hb Hm) in Hrun.
    exact (finish_warnings E c (json_Unmarshal_query E) Query_Result false
             "Successfully unmarshalled permission response" _ rb w w' v err Hrun).
  - rewrite (QueryPermissionsMultiResources_network _ _ _ _ _ _ _ Hb Hm) in Hrun.
    exact (finish_warnings E c (json_Unmarshal_filter E) (filterVerdicts resources) None
             "Successfully unmarshalled permission filter response" _ rb w w' v err Hrun).
Qed.

Lemma one_warning_per_failed_attempt_witness :
  bypasses sample_client member_options = false
  /\ exists v err w',
       QueryPermissions (sample_env (answers_third body_result_false)) sample_client
         "x" ActionRead (Some member_options) w0 = Returns (v, err) w'
       /\ warnings w' = 2 /\ attempts w' = 3.
Proof.
  split; [reflexivity|].
  destruct (QueryPermissions (sample_env (answers_third body_result_false)) sample_client
              "x" ActionRead (Some member_options) w0)
    as [[v err] w'| |] eqn:Hrun; try (vm_compute in Hrun; discriminate).
  pose proof (proj1 (one_warning_per_failed_attempt
                       (sample_env (answers_third body_result_false)) sample_client
                       "x" [] ActionRead member_options w0 eq_refl)
                _ v err w' eq_refl Hrun) as Hattempts.
  exists v, err, w'. split; [reflexivity|].
  vm_compute in Hrun. inversion Hrun; subst. repeat split.
Defined.
